(** * Temp-Gen: the template generator's types, services and form handler

    A shallow embedding of the TypeScript sources:
    - [types.ts]: [TemplateType], [GeneratedFile], [ProjectStructure],
      [ArchitectureInfo], [ProjectOptions];
    - [services/architectureService.ts]: [getArchitectureExplanation];
    - [App.tsx]: the component state and [handleGenerate];
    - [services/templateService.ts]: [generateFiles], the engine
      [App.tsx] imports, modelled from the specification over a blueprint
      catalog taken as a parameter. *)

From Stdlib Require Import Ascii String.
From stdpp Require Import base option strings list gmap.

Local Open Scope string_scope.
Local Open Scope list_scope.

(** ** JavaScript strings

    Strings are sequences of bytes; [EmptyString] is the only falsy one. *)

Definition jsTruthyString (s : string) : bool :=
  match s with
  | EmptyString => false
  | String _ _ => true
  end.

Definition dquote : string := String (Ascii.ascii_of_nat 34) EmptyString.

Definition isUpperAscii (c : Ascii.ascii) : bool :=
  let n := Ascii.nat_of_ascii c in (65 <=? n)%nat && (n <=? 90)%nat.

Definition lowerAscii (c : Ascii.ascii) : Ascii.ascii :=
  if isUpperAscii c then Ascii.ascii_of_nat (Ascii.nat_of_ascii c + 32) else c.

(** [String.prototype.toLowerCase], on the ASCII range: the letters A to
    Z are lowered and every other byte is kept (JavaScript also lowers
    capitals outside ASCII). *)
Fixpoint toLowerCase (s : string) : string :=
  match s with
  | EmptyString => EmptyString
  | String c rest => String (lowerAscii c) (toLowerCase rest)
  end.

(** [String.prototype.replace] with a one-character string pattern [c]
    and the empty replacement: only the first occurrence goes. *)
Fixpoint removeFirstChar (c : Ascii.ascii) (s : string) : string :=
  match s with
  | EmptyString => EmptyString
  | String d rest =>
      if Ascii.eqb c d then rest else String d (removeFirstChar c rest)
  end.

(** ** types.ts *)

Inductive TemplateType : Set :=
  | TYPESCRIPT_EXPRESS
  | GO_CLEAN_ARCH
  | CLI_TOOL.

(** The run-time value of each member of the string enum. *)
Definition templateValue (t : TemplateType) : string :=
  match t with
  | TYPESCRIPT_EXPRESS => "TypeScript/Express"
  | GO_CLEAN_ARCH => "Go/Clean-Arch"
  | CLI_TOOL => "Node.js CLI (temp-gen)"
  end.

(** [Object.values(TemplateType)], in declaration order. *)
Definition templateTypes : list TemplateType :=
  [TYPESCRIPT_EXPRESS; GO_CLEAN_ARCH; CLI_TOOL].

(** Which member of the enum, if any, a run-time string is. *)
Definition parseTemplate (s : string) : option TemplateType :=
  List.find (fun t => String.eqb (templateValue t) s) templateTypes.

Record GeneratedFile : Set := mkGeneratedFile {
  path : string;
  content : string;
  language : string
}.

Record ProjectStructure : Set := mkProjectStructure {
  projectName : string;
  template : TemplateType;
  files : list GeneratedFile
}.

Record ArchitectureInfo : Set := mkArchitectureInfo {
  overview : string;
  keyFeatures : list string;
  deploymentStrategy : string
}.

Record ProjectOptions : Set := mkProjectOptions {
  includeTests : bool;
  includeLinter : bool
}.

#[global] Instance TemplateType_eq_dec : EqDecision TemplateType.
Proof. solve_decision. Defined.

#[global] Instance GeneratedFile_eq_dec : EqDecision GeneratedFile.
Proof. solve_decision. Defined.

#[global] Instance ArchitectureInfo_eq_dec : EqDecision ArchitectureInfo.
Proof. solve_decision. Defined.

#[global] Instance ProjectOptions_eq_dec : EqDecision ProjectOptions.
Proof. solve_decision. Defined.

(** ** services/architectureService.ts *)

Module ArchitectureService.

(** What [mockResponses[template] || fallback] can evaluate to.  The table
    is an object literal, so its prototype is [Object.prototype]: a key
    that is not an own property is looked up there before the access
    yields [undefined]. *)
Inductive JsValue : Set :=
  | JsUndefined
  | JsInfo (info : ArchitectureInfo)
  | JsInherited (key : string).

(** [undefined] is falsy; objects and functions are truthy. *)
Definition truthy (v : JsValue) : bool :=
  match v with
  | JsUndefined => false
  | JsInfo _ => true
  | JsInherited _ => true
  end.

(** [a || b] *)
Definition jsOr (a b : JsValue) : JsValue := if truthy a then a else b.

(** The property names every plain object inherits from
    [Object.prototype]. *)
Definition objectPrototypeKeys : list string :=
  [ "constructor"; "hasOwnProperty"; "isPrototypeOf";
    "propertyIsEnumerable"; "toLocaleString"; "toString"; "valueOf";
    "__proto__"; "__defineGetter__"; "__defineSetter__";
    "__lookupGetter__"; "__lookupSetter__" ].

Definition isObjectPrototypeKey (k : string) : bool :=
  existsb (String.eqb k) objectPrototypeKeys.

(** [obj[key]] on an object literal with the given own properties. *)
Definition getProperty (own : gmap string ArchitectureInfo) (key : string)
  : JsValue :=
  match own !! key with
  | Some info => JsInfo info
  | None => if isObjectPrototypeKey key then JsInherited key else JsUndefined
  end.

Definition expressInfo : ArchitectureInfo :=
  {| overview :=
       "Express.js provides a lightweight and flexible framework for building scalable microservices. It offers excellent middleware support and integrates seamlessly with TypeScript for type-safe development.";
     keyFeatures :=
       [ "Middleware-based request handling";
         "Async/await support for clean async code";
         "Extensive ecosystem of compatible packages" ];
     deploymentStrategy :=
       "Deploy as containerized service using Docker. Use environment variables for configuration. Consider using PM2 or similar process managers for production stability." |}.

Definition goInfo : ArchitectureInfo :=
  {| overview :=
       "Go excels at building efficient, concurrent microservices with minimal resource usage. Its built-in concurrency primitives and fast compilation make it ideal for high-performance services.";
     keyFeatures :=
       [ "Goroutines for efficient concurrency";
         "Fast compilation to binary";
         "Built-in testing framework" ];
     deploymentStrategy :=
       "Compile to a single binary and run directly or containerize with minimal Docker images. Go's static compilation makes deployment straightforward and efficient." |}.

Definition cliInfo : ArchitectureInfo :=
  {| overview :=
       "Node.js CLI tools leverage JavaScript/TypeScript for cross-platform command-line utilities. They're perfect for development tools and automation scripts.";
     keyFeatures :=
       [ "Universal Node.js ecosystem";
         "Cross-platform compatibility";
         "Interactive prompt handling with libraries like inquirer" ];
     deploymentStrategy :=
       "Publish to npm registry. Users can install globally with npm install -g. Include proper error handling and help documentation." |}.

(** The own properties of [mockResponses]. *)
Definition mockResponses : gmap string ArchitectureInfo :=
  <["TypeScript/Express" := expressInfo]>
    (<["Go/Clean-Arch" := goInfo]>
       (<["Node.js CLI (temp-gen)" := cliInfo]> ∅)).

Definition genericFallback : ArchitectureInfo :=
  {| overview := "Architecture details for the selected template.";
     keyFeatures := ["Feature 1"; "Feature 2"];
     deploymentStrategy := "Deploy using standard practices for this stack." |}.

(** The settled state of the promise an [async] function returns. *)
Inductive Promise (A : Type) : Type :=
  | Fulfilled (value : A)
  | Rejected (reason : string).

Arguments Fulfilled {A} value.
Arguments Rejected {A} reason.

(** The body only builds a table and reads one key of it: nothing in it
    throws, so the promise is always fulfilled. *)
Definition getArchitectureExplanation (template : string) : Promise JsValue :=
  Fulfilled (jsOr (getProperty mockResponses template) (JsInfo genericFallback)).

(** The entry of the table written for each member of the enum. *)
Definition infoFor (t : TemplateType) : ArchitectureInfo :=
  match t with
  | TYPESCRIPT_EXPRESS => expressInfo
  | GO_CLEAN_ARCH => goInfo
  | CLI_TOOL => cliInfo
  end.

End ArchitectureService.

(** ** services/templateService.ts *)

Module TemplateService.

(** Modelled from the spec: the option switches, as the keys that gate a
    blueprint or a content fragment ([GenerationOptions], section 3). *)
Inductive OptionFlag : Set :=
  | IncludeTests
  | IncludeLinter.

#[global] Instance OptionFlag_eq_dec : EqDecision OptionFlag.
Proof. solve_decision. Defined.

Definition flagEnabled (options : ProjectOptions) (flag : OptionFlag) : bool :=
  match flag with
  | IncludeTests => includeTests options
  | IncludeLinter => includeLinter options
  end.


(** Modelled from the spec: a path pattern or a piece of a content
    template is literal text interleaved with project-name placeholders
    ([FileBlueprint], section 3). *)
Inductive Segment : Set :=
  | Literal (text : string)
  | NamePlaceholder.

#[global] Instance Segment_eq_dec : EqDecision Segment.
Proof. solve_decision. Defined.

(** Modelled from the spec: a content template is a fixed skeleton
    (fragments without a key) plus fragments toggled by one option flag
    each, concatenated in order (section 4.1 step 4 and the design note on
    content templating). *)
Record Fragment : Set := mkFragment {
  fragmentKey : option OptionFlag;
  fragmentBody : list Segment
}.

(** Modelled from the spec: the static definition of one candidate file
    ([FileBlueprint], section 3): path pattern, content template, declared
    language tag, and zero or more required options gating its inclusion. *)
Record FileBlueprint : Set := mkFileBlueprint {
  pathPattern : list Segment;
  contentTemplate : list Fragment;
  languageTag : string;
  requiredOptions : list OptionFlag
}.

(** Modelled from the spec: the error taxonomy of section 7. *)
Inductive GenerationError : Set :=
  | UnknownTemplate (identifier : string)
  | EmptyProjectName
  | UnresolvedPlaceholder
  | DuplicatePath.

Definition isPreconditionViolation (e : GenerationError) : bool :=
  match e with
  | UnknownTemplate _ | EmptyProjectName => true
  | UnresolvedPlaceholder | DuplicatePath => false
  end.

(** A call either returns its value or throws. *)
Inductive Completion (A : Type) : Type :=
  | Returned (value : A)
  | Thrown (error : GenerationError).

Arguments Returned {A} value.
Arguments Thrown {A} error.

(** Step 2: the gating predicate of a blueprint; a baseline file requires
    nothing. *)
Definition gateOpen (options : ProjectOptions) (bp : FileBlueprint) : bool :=
  forallb (flagEnabled options) (requiredOptions bp).

Definition fragmentActive (options : ProjectOptions) (fr : Fragment) : bool :=
  match fragmentKey fr with
  | None => true
  | Some flag => flagEnabled options flag
  end.

(** Step 4: the fragments of a content template that the options keep. *)
Definition activeFragments (options : ProjectOptions) (bp : FileBlueprint)
  : list Fragment :=
  List.filter (fragmentActive options) (contentTemplate bp).

Definition activeContent (options : ProjectOptions) (bp : FileBlueprint)
  : list Segment :=
  concat (map fragmentBody (activeFragments options bp)).

(** Step 3: every placeholder becomes the project name, verbatim. *)
Definition substituteSegment (name : string) (seg : Segment) : Segment :=
  match seg with
  | Literal text => Literal text
  | NamePlaceholder => Literal name
  end.

Definition substituteName (name : string) (segs : list Segment) : list Segment :=
  map (substituteSegment name) segs.

(** The text of a resolved template; a placeholder left in it is the
    catalog inconsistency of section 7 and yields no text. *)
Fixpoint renderText (segs : list Segment) : option string :=
  match segs with
  | [] => Some EmptyString
  | Literal text :: rest =>
      match renderText rest with
      | Some tail => Some (text +:+ tail)
      | None => None
      end
  | NamePlaceholder :: rest => None
  end.

(** Steps 3 to 5 for one retained blueprint. *)
Definition resolveBlueprint (name : string) (options : ProjectOptions)
  (bp : FileBlueprint) : option GeneratedFile :=
  match renderText (substituteName name (pathPattern bp)) with
  | None => None
  | Some p =>
      match renderText (substituteName name (activeContent options bp)) with
      | None => None
      | Some c => Some {| path := p; content := c; language := languageTag bp |}
      end
  end.

Fixpoint resolveAll (name : string) (options : ProjectOptions)
  (bps : list FileBlueprint) : option (list GeneratedFile) :=
  match bps with
  | [] => Some []
  | bp :: rest =>
      match resolveBlueprint name options bp with
      | None => None
      | Some f =>
          match resolveAll name options rest with
          | None => None
          | Some fs => Some (f :: fs)
          end
      end
  end.

(** The text a template stands for under a project name: literal text
    as it is, the name at every placeholder. *)
Fixpoint resolveTemplate (name : string) (segs : list Segment) : string :=
  match segs with
  | [] => EmptyString
  | Literal text :: rest => text +:+ resolveTemplate name rest
  | NamePlaceholder :: rest => name +:+ resolveTemplate name rest
  end.

(** The file a blueprint stands for under a project name and options. *)
Definition resolvedFile (name : string) (options : ProjectOptions)
  (bp : FileBlueprint) : GeneratedFile :=
  {| path := resolveTemplate name (pathPattern bp);
     content := resolveTemplate name (activeContent options bp);
     language := languageTag bp |}.

(** Modelled from the spec: section 4.1 step 3 as a relation, [text] is
    [segs] read with the project name at every placeholder and the
    literal text everywhere else. *)
Inductive Instantiates (name : string) : list Segment -> string -> Prop :=
  | instantiates_end :
      Instantiates name [] EmptyString
  | instantiates_literal (text : string) (segs : list Segment) (rest : string) :
      Instantiates name segs rest ->
      Instantiates name (Literal text :: segs) (text +:+ rest)
  | instantiates_name (segs : list Segment) (rest : string) :
      Instantiates name segs rest ->
      Instantiates name (NamePlaceholder :: segs) (name +:+ rest).

(** Modelled from the spec: section 4.1 step 4 as a relation, [segs] is
    the content template with the skeleton fragments and the fragments
    of the enabled flags, in template order, and nothing of a disabled
    flag. *)
Inductive Composes (enabled : OptionFlag -> bool)
  : list Fragment -> list Segment -> Prop :=
  | composes_end :
      Composes enabled [] []
  | composes_skeleton (fr : Fragment) (frs : list Fragment) (segs : list Segment) :
      fragmentKey fr = None ->
      Composes enabled frs segs ->
      Composes enabled (fr :: frs) (fragmentBody fr ++ segs)
  | composes_enabled (fr : Fragment) (frs : list Fragment) (segs : list Segment)
      (flag : OptionFlag) :
      fragmentKey fr = Some flag ->
      enabled flag = true ->
      Composes enabled frs segs ->
      Composes enabled (fr :: frs) (fragmentBody fr ++ segs)
  | composes_disabled (fr : Fragment) (frs : list Fragment) (segs : list Segment)
      (flag : OptionFlag) :
      fragmentKey fr = Some flag ->
      enabled flag = false ->
      Composes enabled frs segs ->
      Composes enabled (fr :: frs) segs.

(** Modelled from the spec: section 4.1 steps 2 and 6 as a relation,
    [kept] is the catalog without the blueprints that require a disabled
    flag, in catalog order. *)
Inductive Retains (enabled : OptionFlag -> bool)
  : list FileBlueprint -> list FileBlueprint -> Prop :=
  | retains_end :
      Retains enabled [] []
  | retains_keep (bp : FileBlueprint) (bps kept : list FileBlueprint) :
      (forall flag, flag ∈ requiredOptions bp -> enabled flag = true) ->
      Retains enabled bps kept ->
      Retains enabled (bp :: bps) (bp :: kept)
  | retains_drop (bp : FileBlueprint) (bps kept : list FileBlueprint)
      (flag : OptionFlag) :
      flag ∈ requiredOptions bp ->
      enabled flag = false ->
      Retains enabled bps kept ->
      Retains enabled (bp :: bps) kept.

(** Modelled from the spec: section 4.1 steps 3 to 5 for one blueprint,
    the path is the path pattern with the name in it, the content is the
    composed content template with the name in it, and the language tag
    is the declared one. *)
Definition Resolved (name : string) (enabled : OptionFlag -> bool)
  (bp : FileBlueprint) (f : GeneratedFile) : Prop :=
  Instantiates name (pathPattern bp) (path f) /\
  (exists segs,
     Composes enabled (contentTemplate bp) segs /\
     Instantiates name segs (content f)) /\
  language f = languageTag bp.

(** Modelled from the spec: what section 4.1 lets a generation return
    for a catalog, a non-empty project name, a supported template and
    options. *)
Definition Generates (catalog : TemplateType -> list FileBlueprint)
  (name : string) (templateId : string) (options : ProjectOptions)
  (fs : list GeneratedFile) : Prop :=
  exists t kept,
    templateId = templateValue t /\
    name <> EmptyString /\
    Retains (flagEnabled options) (catalog t) kept /\
    Forall2 (Resolved name (flagEnabled options)) kept fs /\
    NoDup (map path fs).


Definition hasDuplicatePaths (fs : list GeneratedFile) : bool :=
  negb (bool_decide (NoDup (map path fs))).

Section Engine.

(** The blueprint catalog of each template: hand-authored data of the
    engine, fixed at start-up and never mutated. *)
Variable catalog : TemplateType -> list FileBlueprint.

(** Modelled from the spec: [generateFiles] of
    [services/templateService.ts] (section 4.1).  An identifier outside
    the closed set and an empty project name are refused as precondition
    violations (the policy chosen for the empty name is rejection); the
    catalog of the template is filtered by the gating predicates, each
    retained blueprint is resolved in catalog order, and an inconsistent
    catalog (unresolved placeholder, two files on one path) makes the
    call fail rather than return a corrupt list. *)
Definition generateFiles (name : string) (templateId : string)
  (options : ProjectOptions) : Completion (list GeneratedFile) :=
  match parseTemplate templateId with
  | None => Thrown (UnknownTemplate templateId)
  | Some t =>
      if jsTruthyString name then
        match resolveAll name options (List.filter (gateOpen options) (catalog t)) with
        | None => Thrown UnresolvedPlaceholder
        | Some fs =>
            if hasDuplicatePaths fs then Thrown DuplicatePath else Returned fs
        end
      else Thrown EmptyProjectName
  end.


End Engine.



End TemplateService.

(** ** App.tsx *)

Module App.

Import ArchitectureService TemplateService.

(** The [useState] cells of the component. *)
Record AppState : Set := mkAppState {
  projectName : string;
  template : TemplateType;
  logs : list string;
  isGenerating : bool;
  result : option ProjectStructure;
  explanation : option JsValue;
  selectedFile : option GeneratedFile;
  copied : bool;
  projectOptions : ProjectOptions;
  showDesignInfo : option nat
}.

(** The arguments of the [useState] calls. *)
Definition initialProjectOptions : ProjectOptions :=
  {| includeTests := true; includeLinter := true |}.

Definition initialState : AppState :=
  {| projectName := EmptyString;
     template := TYPESCRIPT_EXPRESS;
     logs := [];
     isGenerating := false;
     result := None;
     explanation := None;
     selectedFile := None;
     copied := false;
     projectOptions := initialProjectOptions;
     showDesignInfo := None |}.

(** What a [catch] clause can receive. *)
Inductive Exception : Set :=
  | EngineError (error : GenerationError)
  | PromiseRejection (reason : string).

(** One recorded invocation of [generateFiles]. *)
Record EngineCall : Set := mkEngineCall {
  callName : string;
  callTemplate : string;
  callOptions : ProjectOptions
}.

(** The component state together with what the handler does around it:
    [frames] are the states on screen each time the handler is suspended
    at an [await], [clock] the milliseconds slept so far. *)
Record World : Set := mkWorld {
  ui : AppState;
  frames : list AppState;
  clock : nat;
  defaultPrevented : bool;
  consoleErrors : list Exception;
  engineCalls : list EngineCall
}.

Definition freshWorld (s : AppState) (now : nat) : World :=
  {| ui := s; frames := []; clock := now; defaultPrevented := false;
     consoleErrors := []; engineCalls := [] |}.

Inductive Outcome (A : Type) : Type :=
  | Normal (value : A)
  | Abrupt (exn : Exception).

Arguments Normal {A} value.
Arguments Abrupt {A} exn.

(** Handler code: state passing with exceptions. *)
Definition Handler (A : Type) : Type := World -> Outcome A * World.

#[global] Instance Handler_ret : MRet Handler :=
  fun A (a : A) (w : World) => (Normal a, w).

#[global] Instance Handler_bind : MBind Handler :=
  fun A B (k : A -> Handler B) (m : Handler A) (w : World) =>
    match m w with
    | (Normal a, w') => k a w'
    | (Abrupt e, w') => (Abrupt e, w')
    end.

(** [try { body } catch (err) { handler err } finally { finalizer }] *)
Definition tryCatchFinally (body : Handler unit)
  (handler : Exception -> Handler unit) (finalizer : Handler unit)
  : Handler unit :=
  fun w =>
    let '(o, w1) :=
      match body w with
      | (Normal tt, w') => (Normal tt, w')
      | (Abrupt e, w') => handler e w'
      end in
    match finalizer w1 with
    | (Normal tt, w2) => (o, w2)
    | (Abrupt e, w2) => (Abrupt e, w2)
    end.

Definition modifyUi (f : AppState -> AppState) : Handler unit :=
  fun w =>
    (Normal tt,
     {| ui := f (ui w); frames := frames w; clock := clock w;
        defaultPrevented := defaultPrevented w;
        consoleErrors := consoleErrors w; engineCalls := engineCalls w |}).

Definition setLogs (f : list string -> list string) : Handler unit :=
  modifyUi (fun s =>
    {| projectName := projectName s; template := template s;
       logs := f (logs s); isGenerating := isGenerating s;
       result := result s; explanation := explanation s;
       selectedFile := selectedFile s; copied := copied s;
       projectOptions := projectOptions s;
       showDesignInfo := showDesignInfo s |}).

Definition setIsGenerating (b : bool) : Handler unit :=
  modifyUi (fun s =>
    {| projectName := projectName s; template := template s;
       logs := logs s; isGenerating := b;
       result := result s; explanation := explanation s;
       selectedFile := selectedFile s; copied := copied s;
       projectOptions := projectOptions s;
       showDesignInfo := showDesignInfo s |}).

Definition setResult (r : option ProjectStructure) : Handler unit :=
  modifyUi (fun s =>
    {| projectName := projectName s; template := template s;
       logs := logs s; isGenerating := isGenerating s;
       result := r; explanation := explanation s;
       selectedFile := selectedFile s; copied := copied s;
       projectOptions := projectOptions s;
       showDesignInfo := showDesignInfo s |}).

Definition setExplanation (e : option JsValue) : Handler unit :=
  modifyUi (fun s =>
    {| projectName := projectName s; template := template s;
       logs := logs s; isGenerating := isGenerating s;
       result := result s; explanation := e;
       selectedFile := selectedFile s; copied := copied s;
       projectOptions := projectOptions s;
       showDesignInfo := showDesignInfo s |}).

Definition setSelectedFile (f : option GeneratedFile) : Handler unit :=
  modifyUi (fun s =>
    {| projectName := projectName s; template := template s;
       logs := logs s; isGenerating := isGenerating s;
       result := result s; explanation := explanation s;
       selectedFile := f; copied := copied s;
       projectOptions := projectOptions s;
       showDesignInfo := showDesignInfo s |}).

(** [e.preventDefault()] *)
Definition preventDefault : Handler unit :=
  fun w =>
    (Normal tt,
     {| ui := ui w; frames := frames w; clock := clock w;
        defaultPrevented := true;
        consoleErrors := consoleErrors w; engineCalls := engineCalls w |}).

(** [console.error(err)] *)
Definition consoleError (err : Exception) : Handler unit :=
  fun w =>
    (Normal tt,
     {| ui := ui w; frames := frames w; clock := clock w;
        defaultPrevented := defaultPrevented w;
        consoleErrors := consoleErrors w ++ [err];
        engineCalls := engineCalls w |}).

(** The handler yields: the state reached so far is what the screen can
    show until it resumes (React commits it unless the handler resumes
    at once). *)
Definition suspend (ms : nat) : Handler unit :=
  fun w =>
    (Normal tt,
     {| ui := ui w; frames := frames w ++ [ui w]; clock := clock w + ms;
        defaultPrevented := defaultPrevented w;
        consoleErrors := consoleErrors w; engineCalls := engineCalls w |}).

(** [await new Promise((r) => setTimeout(r, ms))] *)
Definition sleep (ms : nat) : Handler unit := suspend ms.

(** [await p] for a settled promise [p]. *)
Definition await {A : Type} (p : Promise A) : Handler A :=
  fun w =>
    match suspend 0 w with
    | (_, w') =>
        match p with
        | Fulfilled v => (Normal v, w')
        | Rejected reason => (Abrupt (PromiseRejection reason), w')
        end
    end.

Definition yesNo (b : bool) : string := if b then "Yes" else "No".

Section Component.

(** [generateFiles] as imported from [./services/templateService]. *)
Variable generateFiles :
  string -> string -> ProjectOptions -> Completion (list GeneratedFile).

(** The synchronous call on line 107; a [throw] of the engine unwinds
    to the enclosing [catch]. *)
Definition callGenerateFiles (name : string) (t : TemplateType)
  (options : ProjectOptions) : Handler (list GeneratedFile) :=
  fun w =>
    let w' :=
      {| ui := ui w; frames := frames w; clock := clock w;
         defaultPrevented := defaultPrevented w;
         consoleErrors := consoleErrors w;
         engineCalls :=
           engineCalls w ++
             [ {| callName := name; callTemplate := templateValue t;
                  callOptions := options |} ] |} in
    match generateFiles name (templateValue t) options with
    | Returned fs => (Normal fs, w')
    | Thrown e => (Abrupt (EngineError e), w')
    end.

(** [handleGenerate]; [projectName], [template] and [projectOptions] are
    the values of the render the handler was created in. *)
Definition handleGenerate : Handler unit :=
  fun w0 =>
    let projectName := projectName (ui w0) in
    let template := template (ui w0) in
    let projectOptions := projectOptions (ui w0) in
    (preventDefault;;
     if negb (jsTruthyString projectName) then mret tt
     else
       setIsGenerating true;;
       setLogs (fun prev => prev ++ ["Starting generation..."]);;
       setResult None;;
       setExplanation None;;
       tryCatchFinally
         (setLogs (fun prev => prev ++ ["Template: " +:+ templateValue template]);;
          setLogs (fun prev =>
            prev ++ ["Include Tests: " +:+ yesNo (includeTests projectOptions)]);;
          setLogs (fun prev =>
            prev ++ ["Include Linter: " +:+ yesNo (includeLinter projectOptions)]);;
          sleep 800;;
          setLogs (fun prev => prev ++ ["Reading template files..."]);;
          files ← callGenerateFiles projectName template projectOptions;
          setResult (Some (mkProjectStructure projectName template files));;
          setSelectedFile (head files);;
          sleep 500;;
          setLogs (fun prev => prev ++ ["Processing files..."]);;
          setLogs (fun prev => prev ++ ["Fetching architecture details..."]);;
          archExplanation ← await (getArchitectureExplanation (templateValue template));
          setExplanation (Some archExplanation);;
          setLogs (fun prev =>
            prev ++ ["Done! Generated " +:+ dquote +:+ projectName +:+ dquote
                     +:+ " with " +:+ templateValue template +:+ "."]))
         (fun err =>
            consoleError err;;
            setLogs (fun prev => prev ++ ["ERROR: Backend connection failed."]))
         (setIsGenerating false)) w0.

End Component.

(** The tag [SyntaxHighlighter] receives for the selected file:
    [language.toLowerCase()] with its first slash removed. *)
Definition highlighterLanguage (f : GeneratedFile) : string :=
  removeFirstChar "/"%char (toLowerCase (language f)).

End App.

(** ** A small catalog

    Three blueprint lists in the shape section 4.1 describes (baseline
    files, then the test group, then the lint group), used to run the
    engine on concrete inputs. *)

Module Sample.

Import TemplateService.

Definition quoted (s : string) : string := dquote +:+ s +:+ dquote.

Definition skeleton (segs : list Segment) : Fragment :=
  {| fragmentKey := None; fragmentBody := segs |}.

Definition toggled (flag : OptionFlag) (segs : list Segment) : Fragment :=
  {| fragmentKey := Some flag; fragmentBody := segs |}.

Definition baseline (p : list Segment) (c : list Fragment) (lang : string)
  : FileBlueprint :=
  {| pathPattern := p; contentTemplate := c; languageTag := lang;
     requiredOptions := [] |}.

Definition gated (flag : OptionFlag) (p : list Segment) (c : list Fragment)
  (lang : string) : FileBlueprint :=
  {| pathPattern := p; contentTemplate := c; languageTag := lang;
     requiredOptions := [flag] |}.

Definition packageJson (extra : string) : FileBlueprint :=
  baseline [Literal "package.json"]
    [ skeleton [Literal ("{ " +:+ quoted "name" +:+ ": " +:+ dquote);
                NamePlaceholder;
                Literal (dquote +:+ ", " +:+ quoted "dependencies" +:+ ": { "
                         +:+ extra) ];
      toggled IncludeTests [Literal (", " +:+ quoted "jest" +:+ ": " +:+ quoted "^29.0.0")];
      toggled IncludeLinter [Literal (", " +:+ quoted "eslint" +:+ ": " +:+ quoted "^8.0.0")];
      skeleton [Literal " } }"] ]
    "json".

Definition expressCatalog : list FileBlueprint :=
  [ packageJson (quoted "express" +:+ ": " +:+ quoted "^4.18.0");
    baseline [Literal "src/index.ts"]
      [ skeleton [Literal "// "; NamePlaceholder; Literal " entry point"] ]
      "typescript";
    baseline [Literal "Dockerfile"]
      [ skeleton [Literal "FROM node:18-alpine"; Literal " LABEL service=";
                  NamePlaceholder] ]
      "dockerfile";
    gated IncludeTests [Literal "tests/app.test.ts"]
      [ skeleton [Literal "describe('"; NamePlaceholder; Literal "', () => {});"] ]
      "typescript";
    gated IncludeLinter [Literal ".eslintrc.json"]
      [ skeleton [Literal "{ }"] ]
      "json" ].

Definition goCatalog : list FileBlueprint :=
  [ baseline [Literal "go.mod"]
      [ skeleton [Literal "module "; NamePlaceholder] ]
      "go";
    baseline [Literal "cmd/"; NamePlaceholder; Literal "/main.go"]
      [ skeleton [Literal "package main"] ]
      "go";
    baseline [Literal "Dockerfile"]
      [ skeleton [Literal "FROM golang:1.22-alpine"] ]
      "dockerfile";
    gated IncludeTests [Literal "internal/usecase/usecase_test.go"]
      [ skeleton [Literal "package usecase"] ]
      "go";
    gated IncludeLinter [Literal ".golangci.yml"]
      [ skeleton [Literal "linters:"] ]
      "yaml" ].

Definition cliCatalog : list FileBlueprint :=
  [ packageJson (quoted "commander" +:+ ": " +:+ quoted "^11.0.0");
    baseline [Literal "src/cli.ts"]
      [ skeleton [Literal "#!/usr/bin/env node"] ]
      "typescript";
    baseline [Literal "README.md"]
      [ skeleton [Literal "# "; NamePlaceholder] ]
      "markdown";
    gated IncludeTests [Literal "tests/cli.test.ts"]
      [ skeleton [Literal "test('"; NamePlaceholder; Literal "', () => {});"] ]
      "typescript";
    gated IncludeLinter [Literal ".eslintrc.json"]
      [ skeleton [Literal "{ }"] ]
      "json" ].

Definition sampleCatalog (t : TemplateType) : list FileBlueprint :=
  match t with
  | TYPESCRIPT_EXPRESS => expressCatalog
  | GO_CLEAN_ARCH => goCatalog
  | CLI_TOOL => cliCatalog
  end.

Definition bothOptions : ProjectOptions :=
  {| includeTests := true; includeLinter := true |}.

Definition noOptions : ProjectOptions :=
  {| includeTests := false; includeLinter := false |}.

(** The component state after typing a project name into the fresh form. *)
Definition typedName (name : string) : App.AppState :=
  {| App.projectName := name;
     App.template := App.template App.initialState;
     App.logs := App.logs App.initialState;
     App.isGenerating := App.isGenerating App.initialState;
     App.result := App.result App.initialState;
     App.explanation := App.explanation App.initialState;
     App.selectedFile := App.selectedFile App.initialState;
     App.copied := App.copied App.initialState;
     App.projectOptions := App.projectOptions App.initialState;
     App.showDesignInfo := App.showDesignInfo App.initialState |}.



(** The engine over the sample catalog, and its expected output. *)
Definition engine :
  string -> string -> ProjectOptions -> Completion (list GeneratedFile) :=
  generateFiles sampleCatalog.

Definition filesFor (name : string) (t : TemplateType) (options : ProjectOptions)
  : list GeneratedFile :=
  map (resolvedFile name options)
    (List.filter (gateOpen options) (sampleCatalog t)).

Definition testsOnly : ProjectOptions :=
  {| includeTests := true; includeLinter := false |}.


(** The world when the form is submitted for the first time, and the
    world a first run leaves behind. *)
Definition firstSubmit : App.World := App.freshWorld (typedName "user-api") 0.

Definition secondSubmit : App.World := snd (App.handleGenerate engine firstSubmit).

End Sample.

(** ** components/TerminalOutput.tsx *)

Module TerminalOutput.

(** [s.startsWith(needle)] *)
Fixpoint startsWith (s needle : string) : bool :=
  match needle with
  | EmptyString => true
  | String c needle' =>
      match s with
      | EmptyString => false
      | String d s' => Ascii.eqb c d && startsWith s' needle'
      end
  end.

(** [s.includes(needle)]: the needle starts at some position of [s]. *)
Fixpoint includes (s needle : string) : bool :=
  startsWith s needle ||
  match s with
  | EmptyString => false
  | String _ rest => includes rest needle
  end.

(** The class of the [span] that shows a log line. *)
Definition lineClass (log : string) : string :=
  if includes log "ERROR" then "text-red-400"
  else if includes log "SUCCESS" then "text-emerald-400"
  else "text-slate-300".

(** [logs.length === 0]: the placeholder line is shown. *)
Definition showsPlaceholder (logs : list string) : bool :=
  Nat.eqb (length logs) 0.

Definition occursIn (c : ascii) (s : string) : bool :=
  existsb (Ascii.eqb c) (list_ascii_of_string s).

Definition countChar (c : ascii) (s : string) : nat :=
  length (List.filter (Ascii.eqb c) (list_ascii_of_string s)).

End TerminalOutput.

(** ** App.tsx: the other handlers of the component *)

Module AppEvents.

Import ArchitectureService TemplateService App.

Definition setProjectName (value : string) : Handler unit :=
  modifyUi (fun s =>
    {| projectName := value; template := template s;
       logs := logs s; isGenerating := isGenerating s;
       result := result s; explanation := explanation s;
       selectedFile := selectedFile s; copied := copied s;
       projectOptions := projectOptions s;
       showDesignInfo := showDesignInfo s |}).

Definition setTemplate (type : TemplateType) : Handler unit :=
  modifyUi (fun s =>
    {| projectName := projectName s; template := type;
       logs := logs s; isGenerating := isGenerating s;
       result := result s; explanation := explanation s;
       selectedFile := selectedFile s; copied := copied s;
       projectOptions := projectOptions s;
       showDesignInfo := showDesignInfo s |}).

Definition setProjectOptions (f : ProjectOptions -> ProjectOptions)
  : Handler unit :=
  modifyUi (fun s =>
    {| projectName := projectName s; template := template s;
       logs := logs s; isGenerating := isGenerating s;
       result := result s; explanation := explanation s;
       selectedFile := selectedFile s; copied := copied s;
       projectOptions := f (projectOptions s);
       showDesignInfo := showDesignInfo s |}).

(** The file entries of a JSZip archive, by name.  (The library also
    records the folders on the way to each file; those are left out.) *)
Abbreviation Zip := (gmap string string).

(** [zip.file(file.path, file.content)]: the entry of that name is set,
    replacing one that was there. *)
Definition zipFile (zip : Zip) (file : GeneratedFile) : Zip :=
  <[path file := content file]> zip.

(** [result.files.forEach((file) => zip.file(file.path, file.content))]
    on a new archive. *)
Definition zipFiles (fs : list GeneratedFile) : Zip := foldl zipFile ∅ fs.

(** [zip.generateAsync({ type: "blob" })], as the file entries the blob
    holds: the serialiser walks the entries of the archive and passes
    over one whose name is the empty string. *)
Definition generateAsync (zip : Zip) : Zip := delete EmptyString zip.

(** What the click on the generated link hands to the browser. *)
Record Download : Type := mkDownload {
  downloadName : string;
  archive : Zip
}.

(** [handleDownloadZip]; [result] and [projectName] are the values of the
    render the handler was created in.  Its value is the download it
    triggers, if any. *)
Definition handleDownloadZip : Handler (option Download) :=
  fun w0 =>
    let projectName := projectName (ui w0) in
    match result (ui w0) with
    | None => (mret None : Handler (option Download)) w0
    | Some result =>
        (let zip := zipFiles (files result) in
         blob ← await (Fulfilled (generateAsync zip));
         let link := {| downloadName := projectName +:+ ".zip"; archive := blob |} in
         setLogs (fun prev => prev ++ ["Downloaded " +:+ projectName +:+ ".zip"]);;
         mret (Some link)) w0
    end.

(** [selectedFile?.path === file.path]: the sidebar entry of [file] is
    drawn as selected. *)
Definition isSelected (selected : option GeneratedFile) (file : GeneratedFile)
  : bool :=
  match selected with
  | None => false
  | Some sel => String.eqb (path sel) (path file)
  end.

(** What the user can do on the page. *)
Inductive Event : Set :=
  | InputProjectName (value : string)
  | CheckIncludeTests (checked : bool)
  | CheckIncludeLinter (checked : bool)
  | ClickTemplate (type : TemplateType)
  | SubmitForm
  | ClickFile (index : nat)
  | ClickZip.

(** The world and the downloads the browser has received. *)
Record Session : Type := mkSession {
  world : World;
  downloads : list Download
}.

Section Dispatch.

Variable generateFiles :
  string -> string -> ProjectOptions -> Completion (list GeneratedFile).

(** The handler each event is wired to.  Events are dispatched one at a
    time and a handler runs to completion before the next event.  The
    sidebar buttons exist for the files of the current result only. *)
Definition dispatch (s : Session) (e : Event) : Session :=
  match e with
  | InputProjectName value =>
      {| world := snd (setProjectName value (world s));
         downloads := downloads s |}
  | CheckIncludeTests checked =>
      {| world :=
           snd (setProjectOptions
                  (fun prev =>
                     {| includeTests := checked;
                        includeLinter := includeLinter prev |})
                  (world s));
         downloads := downloads s |}
  | CheckIncludeLinter checked =>
      {| world :=
           snd (setProjectOptions
                  (fun prev =>
                     {| includeTests := includeTests prev;
                        includeLinter := checked |})
                  (world s));
         downloads := downloads s |}
  | ClickTemplate type =>
      {| world := snd (setTemplate type (world s));
         downloads := downloads s |}
  | SubmitForm =>
      {| world := snd (handleGenerate generateFiles (world s));
         downloads := downloads s |}
  | ClickFile index =>
      match result (ui (world s)) with
      | None => s
      | Some r =>
          match files r !! index with
          | None => s
          | Some file =>
              {| world := snd (setSelectedFile (Some file) (world s));
                 downloads := downloads s |}
          end
      end
  | ClickZip =>
      match handleDownloadZip (world s) with
      | (Normal (Some d), w) => {| world := w; downloads := downloads s ++ [d] |}
      | (_, w) => {| world := w; downloads := downloads s |}
      end
  end.

Definition runSession (s : Session) (events : list Event) : Session :=
  foldl dispatch s events.

(** The displayed result is what [generateFiles] returned for a recorded
    call made with the name and template the result carries. *)
Definition resultFromCall (w : World) : Prop :=
  forall p,
    result (ui w) = Some p ->
    exists c t,
      c ∈ engineCalls w /\
      callTemplate c = templateValue t /\
      p = mkProjectStructure (callName c) t (files p) /\
      generateFiles (callName c) (callTemplate c) (callOptions c)
      = Returned (files p).

End Dispatch.

(** A call the page can make: a non-empty name and a template of the
    enum. *)
Definition callWellFormed (c : EngineCall) : Prop :=
  callName c <> EmptyString /\ exists t, callTemplate c = templateValue t.

(** The explanation on the page is the table entry of the template the
    displayed result was generated for. *)
Definition explanationMatches (w : World) : Prop :=
  forall name t fs,
    result (ui w) = Some (mkProjectStructure name t fs) ->
    explanation (ui w) = Some (JsInfo (infoFor t)).

(** The selected file, if there is one, is a file of the displayed
    result, if there is one. *)
Definition selectionInResult (w : World) : Prop :=
  forall p f,
    result (ui w) = Some p -> selectedFile (ui w) = Some f -> f ∈ files p.

(** The page as it is first rendered. *)
Definition openPage (now : nat) : Session :=
  {| world := freshWorld initialState now; downloads := [] |}.

End AppEvents.

(** * Properties *)

(** ** The template enumeration *)

Lemma parseTemplate_value (t : TemplateType) :
  parseTemplate (templateValue t) = Some t.
Proof. destruct t; reflexivity. Qed.

Lemma parseTemplate_Some (s : string) (t : TemplateType) :
  parseTemplate s = Some t -> s = templateValue t.
Proof.
  unfold parseTemplate. intros H.
  apply find_some in H as [_ H].
  apply String.eqb_eq in H. congruence.
Qed.

Lemma parseTemplate_None (s : string) :
  parseTemplate s = None <-> forall t, s <> templateValue t.
Proof.
  split.
  - intros H t ->. rewrite parseTemplate_value in H. discriminate.
  - intros H. destruct (parseTemplate s) as [t|] eqn:E; [|reflexivity].
    apply parseTemplate_Some in E. destruct (H t E).
Qed.

Lemma jsTruthyString_true (s : string) :
  jsTruthyString s = true <-> s <> EmptyString.
Proof. destruct s; simpl; split; intros; congruence. Qed.

Lemma append_assoc (a b c : string) : (a +:+ b) +:+ c = a +:+ b +:+ c.
Proof.
  induction a as [|x a IH]; [reflexivity|].
  change (String x ((a +:+ b) +:+ c) = String x (a +:+ b +:+ c)).
  rewrite IH. reflexivity.
Qed.

Lemma lowerAscii_not_upper (c : ascii) : isUpperAscii (lowerAscii c) = false.
Proof. destruct c as [[] [] [] [] [] [] [] []]; reflexivity. Qed.

Lemma removeFirstChar_keeps (P : ascii -> bool) (c : ascii) (s : string) :
  forallb P (list_ascii_of_string s) = true ->
  forallb P (list_ascii_of_string (removeFirstChar c s)) = true.
Proof.
  induction s as [|d s IH]; simpl; [reflexivity|].
  intros H. apply andb_true_iff in H as [Hd Hs].
  destruct (Ascii.eqb c d); [exact Hs|].
  simpl. rewrite Hd. exact (IH Hs).
Qed.

Lemma toLowerCase_lower (s : string) :
  forallb (fun c => negb (isUpperAscii c)) (list_ascii_of_string (toLowerCase s))
  = true.
Proof.
  induction s as [|d s IH]; simpl; [reflexivity|].
  rewrite lowerAscii_not_upper. exact IH.
Qed.

(** ** services/architectureService.ts *)

Section ArchitectureFacts.

Import ArchitectureService.

Lemma mockResponses_own (t : TemplateType) :
  mockResponses !! templateValue t = Some (infoFor t).
Proof. destruct t; reflexivity. Qed.

Lemma mockResponses_other (s : string) :
  parseTemplate s = None -> mockResponses !! s = None.
Proof.
  intros H0. pose proof (proj1 (parseTemplate_None s) H0) as H.
  pose proof (H TYPESCRIPT_EXPRESS) as H1.
  pose proof (H GO_CLEAN_ARCH) as H2.
  pose proof (H CLI_TOOL) as H3.
  simpl in H1, H2, H3. unfold mockResponses.
  rewrite !lookup_insert_ne by congruence.
  apply lookup_empty.
Qed.

Lemma getArchitectureExplanation_value (t : TemplateType) :
  getArchitectureExplanation (templateValue t) = Fulfilled (JsInfo (infoFor t)).
Proof.
  unfold getArchitectureExplanation, getProperty.
  rewrite mockResponses_own. reflexivity.
Qed.

Lemma infoFor_specific (t : TemplateType) : infoFor t <> genericFallback.
Proof. destruct t; discriminate. Qed.

Lemma infoFor_inj (t u : TemplateType) : infoFor t = infoFor u -> t = u.
Proof. destruct t, u; intros H; try reflexivity; discriminate H. Qed.

(** C9, as the claim states it, fails: the key "constructor" is not a
    value of the enum, yet the lookup finds the member every object
    inherits, which is truthy, so the promise is fulfilled with that
    member and not with the generic fallback. *)
Lemma getArchitectureExplanation_inherited_key :
  parseTemplate "constructor" = None /\
  getArchitectureExplanation "constructor"
    = Fulfilled (JsInherited "constructor") /\
  getArchitectureExplanation "constructor"
    <> Fulfilled (JsInfo genericFallback).
Proof. repeat split. discriminate. Qed.

(** C9 (amended): [getArchitectureExplanation] is total and its promise
    is never rejected; for each of the three [TemplateType] values it is
    fulfilled with the entry written for that template, which differs
    from the generic fallback and from the other two entries; for a
    string that is neither a value of the enum nor the name of a
    property inherited from [Object.prototype] it is fulfilled with the
    generic fallback. *)
Theorem getArchitectureExplanation_total :
  (forall s : string, exists v, getArchitectureExplanation s = Fulfilled v) /\
  (forall t : TemplateType,
     getArchitectureExplanation (templateValue t) = Fulfilled (JsInfo (infoFor t))
     /\ infoFor t <> genericFallback
     /\ forall u, infoFor u = infoFor t -> u = t) /\
  (forall s : string,
     parseTemplate s = None ->
     isObjectPrototypeKey s = false ->
     getArchitectureExplanation s = Fulfilled (JsInfo genericFallback)).
Proof.
  split; [|split].
  - intros s. eexists. reflexivity.
  - intros t. split; [|split].
    + apply getArchitectureExplanation_value.
    + apply infoFor_specific.
    + intros u. apply infoFor_inj.
  - intros s Hs Hk.
    unfold getArchitectureExplanation, getProperty.
    rewrite (mockResponses_other s Hs), Hk. reflexivity.
Qed.

Lemma getArchitectureExplanation_total_witness :
  getArchitectureExplanation "Rust/Actix" = Fulfilled (JsInfo genericFallback).
Proof.
  apply (proj2 (proj2 getArchitectureExplanation_total) "Rust/Actix");
    reflexivity.
Defined.

End ArchitectureFacts.

(** ** App.tsx *)

(** Exposes the two calls the handler makes; once their outcomes are
    known the rest of the run evaluates. *)
Ltac run_handler :=
  unfold App.handleGenerate, App.callGenerateFiles;
  cbn [App.ui App.projectName App.template App.projectOptions];
  rewrite ?getArchitectureExplanation_value.

(** Checks a property of each element of a list given by enumeration. *)
Ltac forall_elements :=
  cbn [app];
  repeat match goal with
         | |- Forall _ (_ :: _) => constructor; [cbn; auto|]
         | |- Forall _ [] => constructor
         end.

Ltac eval_handler :=
  lazy -[app last head drop length String.append templateValue].

Section HandlerFacts.

Import ArchitectureService TemplateService App.

Variable generateFiles :
  string -> string -> ProjectOptions -> Completion (list GeneratedFile).

Lemma handleGenerate_result (w : World) :
  jsTruthyString (projectName (ui w)) = true ->
  result (ui (snd (handleGenerate generateFiles w)))
  = match generateFiles (projectName (ui w)) (templateValue (template (ui w)))
            (projectOptions (ui w)) with
    | Returned fs =>
        Some (mkProjectStructure (projectName (ui w)) (template (ui w)) fs)
    | Thrown _ => None
    end.
Proof.
  intros Hname.
  destruct w as [[name t lg gen res ex sel cp opts sd] fr cl dp ce ec].
  simpl in Hname. destruct name as [|c name]; [discriminate|].
  run_handler.
  destruct (generateFiles (String c name) (templateValue t) opts) as [fs|e];
    reflexivity.
Qed.

(** C8: a run of [handleGenerate] on a non-empty (truthy) name shows and leaves
    either no result or the complete one.  When [generateFiles] returns
    [fs], the final result is the whole project built from [fs] and
    every state shown while the handler was suspended has no result or
    that same whole result; when [generateFiles] throws, the final
    result is null, so is the result of every state shown, no
    explanation is set, the error is logged, and the last log line is
    the error message.  In both cases the handler ends with
    [isGenerating] false. *)
Theorem handleGenerate_atomic (w : World) :
  jsTruthyString (projectName (ui w)) = true ->
  exists shown,
    frames (snd (handleGenerate generateFiles w)) = frames w ++ shown /\
    isGenerating (ui (snd (handleGenerate generateFiles w))) = false /\
    match generateFiles (projectName (ui w)) (templateValue (template (ui w)))
            (projectOptions (ui w)) with
    | Returned fs =>
        let whole :=
          mkProjectStructure (projectName (ui w)) (template (ui w)) fs in
        result (ui (snd (handleGenerate generateFiles w))) = Some whole /\
        selectedFile (ui (snd (handleGenerate generateFiles w))) = head fs /\
        Forall (fun s => result s = None \/ result s = Some whole) shown
    | Thrown e =>
        result (ui (snd (handleGenerate generateFiles w))) = None /\
        explanation (ui (snd (handleGenerate generateFiles w))) = None /\
        Forall (fun s => result s = None) shown /\
        consoleErrors (snd (handleGenerate generateFiles w))
          = consoleErrors w ++ [EngineError e] /\
        last (logs (ui (snd (handleGenerate generateFiles w))))
          = Some "ERROR: Backend connection failed."
    end.
Proof.
  intros Hname.
  destruct w as [[name t lg gen res ex sel cp opts sd] fr cl dp ce ec].
  simpl in Hname. destruct name as [|c name]; [discriminate|].
  run_handler.
  destruct (generateFiles (String c name) (templateValue t) opts) as [fs|e];
    eval_handler.
  - rewrite <- !app_assoc. eexists. split; [reflexivity|].
    split; [reflexivity|].
    split; [reflexivity|]. split; [reflexivity|].
    forall_elements.
  - rewrite <- !app_assoc. eexists. split; [reflexivity|].
    split; [reflexivity|].
    split; [reflexivity|]. split; [reflexivity|].
    split; [forall_elements|].
    split; [reflexivity|].
    rewrite !app_assoc. apply last_snoc.
Qed.

(** C10: [handleGenerate] calls [generateFiles] with non-empty project
    names only; when the project name is the empty string it returns
    before generation: no call is made, nothing is shown and the
    component state is unchanged. *)
Theorem handleGenerate_guards_empty_name (w : World) :
  exists calls,
    engineCalls (snd (handleGenerate generateFiles w)) = engineCalls w ++ calls /\
    Forall (fun c => callName c <> EmptyString) calls /\
    (jsTruthyString (projectName (ui w)) = false ->
     calls = [] /\
     ui (snd (handleGenerate generateFiles w)) = ui w /\
     frames (snd (handleGenerate generateFiles w)) = frames w).
Proof.
  destruct w as [[name t lg gen res ex sel cp opts sd] fr cl dp ce ec].
  destruct name as [|c name].
  - exists []. eval_handler. rewrite app_nil_r. auto.
  - exists [mkEngineCall (String c name) (templateValue t) opts].
    run_handler.
    destruct (generateFiles (String c name) (templateValue t) opts) as [fs|e];
      eval_handler; (split; [reflexivity|]); (split; [|discriminate]);
      forall_elements; discriminate.
Qed.

(** C6, as the claim states it, fails: the option state the component
    starts from does not have both switches off. *)
Lemma initialProjectOptions_not_off :
  ~ (includeTests (projectOptions initialState) = false /\
     includeLinter (projectOptions initialState) = false).
Proof. intros [H _]. discriminate H. Qed.

(** C6 (amended): the option state the component starts from has both
    [includeTests] and [includeLinter] set to true, and a run of the
    handler passes the options of the current state to [generateFiles]
    as they are. *)
Theorem initialProjectOptions_enabled :
  projectOptions initialState
    = {| includeTests := true; includeLinter := true |} /\
  forall w : World,
    Forall (fun c => callOptions c = projectOptions (ui w))
      (drop (length (engineCalls w))
         (engineCalls (snd (handleGenerate generateFiles w)))).
Proof.
  split; [reflexivity|].
  intros w.
  destruct w as [[name t lg gen res ex sel cp opts sd] fr cl dp ce ec].
  destruct name as [|c name].
  - eval_handler. rewrite drop_all. constructor.
  - run_handler.
    destruct (generateFiles (String c name) (templateValue t) opts) as [fs|e];
      eval_handler; rewrite drop_app_length; forall_elements.
Qed.

End HandlerFacts.

(** ** Lists *)

Section ListFacts.

Context {A B : Type}.





End ListFacts.

(** ** services/templateService.ts *)

Section EngineFacts.

Import TemplateService.

Variable catalog : TemplateType -> list FileBlueprint.

Lemma renderText_substituteName (name : string) (segs : list Segment) :
  renderText (substituteName name segs) = Some (resolveTemplate name segs).
Proof.
  induction segs as [|[text|] rest IH]; simpl.
  - reflexivity.
  - fold (substituteName name rest). rewrite IH. reflexivity.
  - fold (substituteName name rest). rewrite IH. reflexivity.
Qed.

Lemma resolveBlueprint_resolved name options bp :
  resolveBlueprint name options bp = Some (resolvedFile name options bp).
Proof.
  unfold resolveBlueprint. rewrite !renderText_substituteName. reflexivity.
Qed.

Lemma resolveAll_resolved name options bps :
  resolveAll name options bps = Some (map (resolvedFile name options) bps).
Proof.
  induction bps as [|bp rest IH]; simpl; [reflexivity|].
  rewrite resolveBlueprint_resolved, IH. reflexivity.
Qed.

Lemma hasDuplicatePaths_false (fs : list GeneratedFile) :
  hasDuplicatePaths fs = false -> NoDup (map path fs).
Proof.
  unfold hasDuplicatePaths. intros H.
  apply negb_false_iff in H. apply bool_decide_eq_true in H. exact H.
Qed.

(** What a returned file list is. *)
Lemma generateFiles_Returned name templateId options fs :
  generateFiles catalog name templateId options = Returned fs ->
  exists t,
    parseTemplate templateId = Some t /\
    jsTruthyString name = true /\
    fs = map (resolvedFile name options)
           (List.filter (gateOpen options) (catalog t)) /\
    NoDup (map path fs).
Proof.
  unfold generateFiles. intros H.
  destruct (parseTemplate templateId) as [t|]; [|discriminate].
  destruct (jsTruthyString name); [|discriminate].
  rewrite resolveAll_resolved in H.
  destruct (hasDuplicatePaths _) eqn:Hdup; [discriminate|].
  injection H as <-. exists t. repeat split; auto.
  apply hasDuplicatePaths_false, Hdup.
Qed.



(** C2: the file list [generateFiles] returns holds no two files with
    the same path. *)
Theorem generateFiles_paths_unique name templateId options fs :
  generateFiles catalog name templateId options = Returned fs ->
  NoDup (map path fs).
Proof.
  intros H. apply generateFiles_Returned in H as (t & _ & _ & _ & Hnd).
  exact Hnd.
Qed.

(** C4: for every project name and options, a template identifier
    outside the three [TemplateType] values makes [generateFiles] throw
    a precondition violation, and no file list is returned. *)
Theorem generateFiles_unknown_template name templateId options :
  parseTemplate templateId = None ->
  generateFiles catalog name templateId options
    = Thrown (UnknownTemplate templateId) /\
  isPreconditionViolation (UnknownTemplate templateId) = true /\
  forall fs, generateFiles catalog name templateId options <> Returned fs.
Proof.
  intros H. unfold generateFiles. rewrite H.
  repeat split. discriminate.
Qed.

(** *** The engine against the relations of section 4.1 *)

Lemma templateValue_inj (t u : TemplateType) :
  templateValue t = templateValue u -> t = u.
Proof. destruct t, u; intros H; try reflexivity; discriminate H. Qed.

Lemma forallb_false_elem {A : Type} (f : A -> bool) (l : list A) :
  forallb f l = false -> exists x, x ∈ l /\ f x = false.
Proof.
  induction l as [|x l IH]; simpl; [discriminate|].
  destruct (f x) eqn:Hx; simpl.
  - intros H. destruct (IH H) as (y & Hy & Hfy).
    exists y. split; [right; exact Hy|exact Hfy].
  - intros _. exists x. split; [left|exact Hx].
Qed.

Lemma Instantiates_resolveTemplate name segs :
  Instantiates name segs (resolveTemplate name segs).
Proof. induction segs as [|[text|] segs IH]; simpl; constructor; exact IH. Qed.


(** A template with a placeholder puts the name into the text. *)
Lemma Instantiates_inserts name segs text :
  NamePlaceholder ∈ segs ->
  Instantiates name segs text ->
  exists before after, text = before +:+ name +:+ after.
Proof.
  intros Hin Hinst.
  induction Hinst as [|lit segs rest _ IH|segs rest _ _].
  - inversion Hin.
  - apply elem_of_cons in Hin as [Hin|Hin]; [discriminate Hin|].
    destruct (IH Hin) as (before & after & ->).
    exists (lit +:+ before), after. symmetry. apply append_assoc.
  - exists EmptyString, rest. reflexivity.
Qed.

(** A template without a placeholder reads the same under every name. *)
Lemma Instantiates_name_free n1 n2 segs a b :
  NamePlaceholder ∉ segs ->
  Instantiates n1 segs a -> Instantiates n2 segs b -> a = b.
Proof.
  intros Hfree Ha. revert b.
  induction Ha as [|text segs rest _ IH|segs rest _ _]; intros b Hb.
  - inversion Hb. reflexivity.
  - inversion Hb; subst. f_equal. apply IH; [|assumption].
    intros Hin. apply Hfree. right. exact Hin.
  - exfalso. apply Hfree. left.
Qed.

Lemma Composes_activeContent options bp :
  Composes (flagEnabled options) (contentTemplate bp) (activeContent options bp).
Proof.
  unfold activeContent, activeFragments.
  induction (contentTemplate bp) as [|fr frs IH]; simpl; [constructor|].
  unfold fragmentActive at 1.
  destruct (fragmentKey fr) as [flag|] eqn:Hkey.
  - destruct (flagEnabled options flag) eqn:Hflag; simpl.
    + eapply composes_enabled; eauto.
    + eapply composes_disabled; eauto.
  - simpl. apply composes_skeleton; assumption.
Qed.

Lemma Composes_functional enabled frs a b :
  Composes enabled frs a -> Composes enabled frs b -> a = b.
Proof.
  intros Ha. revert b.
  induction Ha as [|fr frs segs Hk _ IH|fr frs segs flag Hk He _ IH
                   |fr frs segs flag Hk He _ IH];
    intros b Hb; inversion Hb; subst; try congruence;
    try (f_equal; auto; fail); auto.
Qed.


Lemma Retains_filter options bps :
  Retains (flagEnabled options) bps (List.filter (gateOpen options) bps).
Proof.
  induction bps as [|bp bps IH]; simpl; [constructor|].
  destruct (gateOpen options bp) eqn:Hgate.
  - apply retains_keep; [|exact IH].
    unfold gateOpen in Hgate. rewrite forallb_forall in Hgate.
    intros flag Hin. apply Hgate, list_elem_of_In, Hin.
  - apply forallb_false_elem in Hgate as (flag & Hin & Hoff).
    eapply retains_drop; eauto.
Qed.

Lemma Retains_functional enabled bps a b :
  Retains enabled bps a -> Retains enabled bps b -> a = b.
Proof.
  intros Ha. revert b.
  induction Ha as [|bp bps kept Hall _ IH|bp bps kept flag Hin Hoff _ IH];
    intros b Hb; inversion Hb; subst.
  - reflexivity.
  - f_equal. auto.
  - match goal with
    | Hin : ?g ∈ requiredOptions bp, Hoff : enabled ?g = false |- _ =>
        rewrite (Hall g Hin) in Hoff; discriminate Hoff
    end.
  - match goal with
    | Hall : forall g, g ∈ requiredOptions bp -> enabled g = true |- _ =>
        rewrite (Hall flag Hin) in Hoff; discriminate Hoff
    end.
  - auto.
Qed.

Lemma Resolved_resolvedFile name options bp :
  Resolved name (flagEnabled options) bp (resolvedFile name options bp).
Proof.
  split; [apply Instantiates_resolveTemplate|]. split; [|reflexivity].
  exists (activeContent options bp).
  split; [apply Composes_activeContent|apply Instantiates_resolveTemplate].
Qed.




Lemma Forall2_Resolved_map name options bps :
  Forall2 (Resolved name (flagEnabled options)) bps
    (map (resolvedFile name options) bps).
Proof.
  induction bps as [|bp bps IH]; simpl; constructor;
    [apply Resolved_resolvedFile|exact IH].
Qed.

(** A returned list is one section 4.1 admits. *)
Lemma generateFiles_sound name templateId options fs :
  generateFiles catalog name templateId options = Returned fs ->
  Generates catalog name templateId options fs.
Proof.
  intros H. apply generateFiles_Returned in H as (t & Ht & Hname & -> & Hnd).
  exists t, (List.filter (gateOpen options) (catalog t)).
  split; [apply parseTemplate_Some, Ht|].
  split; [apply jsTruthyString_true, Hname|].
  split; [apply Retains_filter|].
  split; [apply Forall2_Resolved_map|exact Hnd].
Qed.




(** C5: name substitution is complete.  [generateFiles] never fails on
    an unresolved placeholder.  When it returns for the names [n1] and
    [n2], both lists come from the same retained blueprints in the same
    order; each file is its blueprint with the project name at every
    placeholder of the path pattern and of the composed content and the
    literal text everywhere else, so the two lists differ at name
    positions only; a path pattern with a placeholder yields a path with
    the name in it, and a pattern or content without any yields the same
    text under both names. *)
Theorem generateFiles_name_substitution n1 n2 templateId options :
  generateFiles catalog n1 templateId options <> Thrown UnresolvedPlaceholder /\
  forall fs1 fs2,
    generateFiles catalog n1 templateId options = Returned fs1 ->
    generateFiles catalog n2 templateId options = Returned fs2 ->
    exists t kept,
      templateId = templateValue t /\
      Retains (flagEnabled options) (catalog t) kept /\
      Forall2 (Resolved n1 (flagEnabled options)) kept fs1 /\
      Forall2 (Resolved n2 (flagEnabled options)) kept fs2 /\
      Forall2
        (fun bp f =>
           NamePlaceholder ∈ pathPattern bp ->
           exists before after, path f = before +:+ n1 +:+ after)
        kept fs1 /\
      (forall i bp f1 f2,
         kept !! i = Some bp -> fs1 !! i = Some f1 -> fs2 !! i = Some f2 ->
         language f1 = language f2 /\
         (NamePlaceholder ∉ pathPattern bp -> path f1 = path f2) /\
         (forall segs,
            Composes (flagEnabled options) (contentTemplate bp) segs ->
            NamePlaceholder ∉ segs -> content f1 = content f2)).
Proof.
  split.
  - unfold generateFiles.
    destruct (parseTemplate templateId); [|discriminate].
    destruct (jsTruthyString n1); [|discriminate].
    rewrite resolveAll_resolved.
    destruct (hasDuplicatePaths _); discriminate.
  - intros fs1 fs2 H1 H2.
    apply generateFiles_sound in H1 as (t & kept & -> & _ & Hk & Hr1 & _).
    apply generateFiles_sound in H2 as (t' & kept' & Ht' & _ & Hk' & Hr2 & _).
    apply templateValue_inj in Ht' as <-.
    rewrite (Retains_functional _ _ _ _ Hk' Hk) in Hr2.
    exists t, kept. repeat split; auto.
    + eapply Forall2_impl; [exact Hr1|].
      intros bp f (Hp & _) Hin. eapply Instantiates_inserts; eauto.
    + destruct (Forall2_lookup_lr _ _ _ _ _ _ Hr1 H H0) as (_ & _ & Hl1).
      destruct (Forall2_lookup_lr _ _ _ _ _ _ Hr2 H H1) as (_ & _ & Hl2).
      congruence.
    + intros Hfree.
      destruct (Forall2_lookup_lr _ _ _ _ _ _ Hr1 H H0) as (Hp1 & _).
      destruct (Forall2_lookup_lr _ _ _ _ _ _ Hr2 H H1) as (Hp2 & _).
      eapply Instantiates_name_free; eauto.
    + intros segs Hc Hfree.
      destruct (Forall2_lookup_lr _ _ _ _ _ _ Hr1 H H0)
        as (_ & (segs1 & Hc1 & Hi1) & _).
      destruct (Forall2_lookup_lr _ _ _ _ _ _ Hr2 H H1)
        as (_ & (segs2 & Hc2 & Hi2) & _).
      rewrite (Composes_functional _ _ _ _ Hc1 Hc) in Hi1.
      rewrite (Composes_functional _ _ _ _ Hc2 Hc) in Hi2.
      eapply Instantiates_name_free; eauto.
Qed.









End EngineFacts.

(** ** Runs on the sample catalog *)

Section SampleRuns.

Import ArchitectureService TemplateService Sample.

(** Scenario 1 of section 8: baseline files only. *)
Example express_baseline :
  map path (filesFor "user-api" TYPESCRIPT_EXPRESS noOptions)
  = ["package.json"; "src/index.ts"; "Dockerfile"].
Proof. reflexivity. Qed.

(** Scenario 2: both optional groups. *)
Example express_both :
  engine "user-api" "TypeScript/Express" bothOptions
    = Returned (filesFor "user-api" TYPESCRIPT_EXPRESS bothOptions) /\
  map path (filesFor "user-api" TYPESCRIPT_EXPRESS bothOptions)
  = ["package.json"; "src/index.ts"; "Dockerfile"; "tests/app.test.ts";
     ".eslintrc.json"].
Proof. split; reflexivity. Qed.

(** Scenario 3: the CLI template with tests has no container file. *)
Example cli_tests_only :
  map path (filesFor "my-tool" CLI_TOOL testsOnly)
  = ["package.json"; "src/cli.ts"; "README.md"; "tests/cli.test.ts"].
Proof. reflexivity. Qed.

(** The name reaches paths as well as contents. *)
Example go_paths :
  map path (filesFor "svc" GO_CLEAN_ARCH noOptions)
  = ["go.mod"; "cmd/svc/main.go"; "Dockerfile"].
Proof. reflexivity. Qed.

Example empty_name_refused :
  engine EmptyString "Go/Clean-Arch" bothOptions = Thrown EmptyProjectName.
Proof. reflexivity. Qed.

Example secondSubmit_state :
  App.clock secondSubmit = 1300 /\
  length (App.logs (App.ui secondSubmit)) = 8 /\
  length (App.frames secondSubmit) = 3 /\
  App.isGenerating (App.ui secondSubmit) = false /\
  App.explanation (App.ui secondSubmit) = Some (JsInfo expressInfo).
Proof. vm_compute. repeat split. Qed.


Lemma generateFiles_paths_unique_witness :
  NoDup (map path (filesFor "user-api" TYPESCRIPT_EXPRESS bothOptions)).
Proof.
  apply (generateFiles_paths_unique sampleCatalog "user-api"
           "TypeScript/Express" bothOptions).
  reflexivity.
Defined.



Lemma generateFiles_unknown_template_witness :
  engine "user-api" "Rust/Actix" bothOptions
  = Thrown (UnknownTemplate "Rust/Actix").
Proof.
  apply (generateFiles_unknown_template sampleCatalog "user-api"
           "Rust/Actix" bothOptions).
  reflexivity.
Defined.

Lemma generateFiles_name_substitution_witness :
  exists t kept,
    "Go/Clean-Arch" = templateValue t /\
    Retains (flagEnabled bothOptions) (sampleCatalog t) kept /\
    Forall2 (Resolved "billing" (flagEnabled bothOptions)) kept
      (filesFor "billing" GO_CLEAN_ARCH bothOptions) /\
    Forall2 (Resolved "user-api" (flagEnabled bothOptions)) kept
      (filesFor "user-api" GO_CLEAN_ARCH bothOptions) /\
    Forall2
      (fun bp f =>
         NamePlaceholder ∈ pathPattern bp ->
         exists before after, path f = before +:+ "billing" +:+ after)
      kept (filesFor "billing" GO_CLEAN_ARCH bothOptions) /\
    (forall i bp f1 f2,
       kept !! i = Some bp ->
       filesFor "billing" GO_CLEAN_ARCH bothOptions !! i = Some f1 ->
       filesFor "user-api" GO_CLEAN_ARCH bothOptions !! i = Some f2 ->
       language f1 = language f2 /\
       (NamePlaceholder ∉ pathPattern bp -> path f1 = path f2) /\
       (forall segs,
          Composes (flagEnabled bothOptions) (contentTemplate bp) segs ->
          NamePlaceholder ∉ segs -> content f1 = content f2)).
Proof.
  apply (proj2 (generateFiles_name_substitution sampleCatalog "billing"
                  "user-api" "Go/Clean-Arch" bothOptions));
    reflexivity.
Defined.



Lemma handleGenerate_atomic_witness :
  exists shown,
    App.frames secondSubmit = shown /\
    App.isGenerating (App.ui secondSubmit) = false /\
    App.result (App.ui secondSubmit)
      = Some (mkProjectStructure "user-api" TYPESCRIPT_EXPRESS
                (filesFor "user-api" TYPESCRIPT_EXPRESS bothOptions)) /\
    App.selectedFile (App.ui secondSubmit)
      = head (filesFor "user-api" TYPESCRIPT_EXPRESS bothOptions) /\
    Forall
      (fun s =>
         App.result s = None \/
         App.result s
           = Some (mkProjectStructure "user-api" TYPESCRIPT_EXPRESS
                     (filesFor "user-api" TYPESCRIPT_EXPRESS bothOptions)))
      shown.
Proof.
  apply (handleGenerate_atomic engine firstSubmit).
  reflexivity.
Defined.

Lemma handleGenerate_guards_empty_name_witness :
  App.engineCalls
    (snd (App.handleGenerate engine (App.freshWorld App.initialState 0)))
  = [] /\
  App.ui (snd (App.handleGenerate engine (App.freshWorld App.initialState 0)))
  = App.initialState.
Proof.
  destruct (handleGenerate_guards_empty_name engine
              (App.freshWorld App.initialState 0))
    as (calls & Hcalls & _ & Hempty).
  destruct (Hempty eq_refl) as (-> & Hui & _).
  split; [exact Hcalls | exact Hui].
Defined.

End SampleRuns.

(** ** App.tsx: more on [handleGenerate] *)

(** As [eval_handler], keeping the arithmetic on the clock folded. *)
Ltac eval_run :=
  lazy -[app last head drop length String.append templateValue
         Nat.add Nat.sub].

Section MoreHandlerFacts.

Import ArchitectureService TemplateService App.

Variable generateFiles :
  string -> string -> ProjectOptions -> Completion (list GeneratedFile).

(** X1: whatever [generateFiles] does, [handleGenerate] completes
    normally: an error of the engine is caught and never escapes the
    handler. *)
Theorem handleGenerate_never_throws (w : World) :
  fst (handleGenerate generateFiles w) = Normal tt.
Proof.
  destruct w as [[name t lg gen res ex sel cp opts sd] fr cl dp ce ec].
  destruct name as [|c name]; [reflexivity|].
  run_handler.
  destruct (generateFiles (String c name) (templateValue t) opts) as [fs|e];
    reflexivity.
Qed.

(** X2: [handleGenerate] only appends to the log.  The lines that were
    there stay in front; a run whose engine call returns adds eight
    lines, a run whose engine call throws adds six, and a submission
    with an empty name adds none. *)
Theorem handleGenerate_appends_logs (w : World) :
  exists added,
    logs (ui (snd (handleGenerate generateFiles w))) = logs (ui w) ++ added /\
    length added
    = if jsTruthyString (projectName (ui w)) then
        match generateFiles (projectName (ui w))
                (templateValue (template (ui w))) (projectOptions (ui w)) with
        | Returned _ => 8
        | Thrown _ => 6
        end
      else 0.
Proof.
  destruct w as [[name t lg gen res ex sel cp opts sd] fr cl dp ce ec].
  destruct name as [|c name].
  - exists []. eval_handler. rewrite app_nil_r. auto.
  - run_handler.
    destruct (generateFiles (String c name) (templateValue t) opts) as [fs|e];
      eval_handler; rewrite <- !app_assoc; eexists; split; reflexivity.
Qed.

(** X3: while a run is suspended the page shows [isGenerating] true (the
    submit button is disabled) and no explanation.  A run whose engine
    call returns is suspended three times and sleeps 1300 ms in all, a
    run whose engine call throws is suspended once and sleeps 800 ms, and
    a submission with an empty name is not suspended at all. *)
Theorem handleGenerate_busy_while_suspended (w : World) :
  exists shown,
    frames (snd (handleGenerate generateFiles w)) = frames w ++ shown /\
    Forall (fun s => isGenerating s = true /\ explanation s = None) shown /\
    (length shown, clock (snd (handleGenerate generateFiles w)) - clock w)
    = if jsTruthyString (projectName (ui w)) then
        match generateFiles (projectName (ui w))
                (templateValue (template (ui w))) (projectOptions (ui w)) with
        | Returned _ => (3, 1300)
        | Thrown _ => (1, 800)
        end
      else (0, 0).
Proof.
  destruct w as [[name t lg gen res ex sel cp opts sd] fr cl dp ce ec].
  destruct name as [|c name].
  - exists []. eval_run. rewrite app_nil_r.
    repeat split; [constructor|]. f_equal. lia.
  - run_handler.
    destruct (generateFiles (String c name) (templateValue t) opts) as [fs|e];
      eval_run; rewrite <- ?app_assoc; eexists;
      (split; [reflexivity|]); (split; [forall_elements|]);
      cbn [app length]; f_equal; lia.
Qed.

(** X4: [handleGenerate] never touches what the user entered: project
    name, template, options, and the [copied] and [showDesignInfo] cells
    are as before.  The selected file becomes the first returned file
    when the engine call returns, and is left as it was (a file of an
    earlier run, possibly) when the call throws or the name is empty. *)
Theorem handleGenerate_preserves_form (w : World) :
  projectName (ui (snd (handleGenerate generateFiles w))) = projectName (ui w) /\
  template (ui (snd (handleGenerate generateFiles w))) = template (ui w) /\
  projectOptions (ui (snd (handleGenerate generateFiles w))) = projectOptions (ui w) /\
  copied (ui (snd (handleGenerate generateFiles w))) = copied (ui w) /\
  showDesignInfo (ui (snd (handleGenerate generateFiles w))) = showDesignInfo (ui w) /\
  selectedFile (ui (snd (handleGenerate generateFiles w)))
  = if jsTruthyString (projectName (ui w)) then
      match generateFiles (projectName (ui w))
              (templateValue (template (ui w))) (projectOptions (ui w)) with
      | Returned fs => head fs
      | Thrown _ => selectedFile (ui w)
      end
    else selectedFile (ui w).
Proof.
  destruct w as [[name t lg gen res ex sel cp opts sd] fr cl dp ce ec].
  destruct name as [|c name]; [repeat split|].
  run_handler.
  destruct (generateFiles (String c name) (templateValue t) opts) as [fs|e];
    repeat split.
Qed.

(** X5: after a run whose engine call returns, the explanation on the
    page is the entry of the mock table written for the selected
    template, never the generic fallback. *)
Theorem handleGenerate_explanation (w : World) (fs : list GeneratedFile) :
  jsTruthyString (projectName (ui w)) = true ->
  generateFiles (projectName (ui w)) (templateValue (template (ui w)))
    (projectOptions (ui w)) = Returned fs ->
  explanation (ui (snd (handleGenerate generateFiles w)))
  = Some (JsInfo (infoFor (template (ui w)))) /\
  explanation (ui (snd (handleGenerate generateFiles w)))
  <> Some (JsInfo genericFallback).
Proof.
  destruct w as [[name t lg gen res ex sel cp opts sd] fr cl dp ce ec].
  cbn [ui projectName template projectOptions]. intros Hname Hret.
  destruct name as [|c name]; [discriminate|].
  run_handler. rewrite Hret.
  split; [reflexivity|].
  eval_handler. intros H. injection H as H.
  exact (infoFor_specific t H).
Qed.

End MoreHandlerFacts.

(** ** services/architectureService.ts: every key *)

Section MoreArchitectureFacts.

Import ArchitectureService.

Lemma inherited_key_not_template (s : string) :
  isObjectPrototypeKey s = true -> parseTemplate s = None.
Proof.
  unfold isObjectPrototypeKey. intros H.
  apply existsb_exists in H as (key & Hin & Heq).
  apply String.eqb_eq in Heq. subst key. simpl in Hin.
  repeat (destruct Hin as [<-|Hin]; [reflexivity|]).
  destruct Hin.
Qed.

(** X6: what [getArchitectureExplanation] resolves to, for every string:
    the entry of the template when the string is a value of the enum,
    the member inherited from [Object.prototype] when the string names
    one, and the generic fallback otherwise.  In particular no inherited
    name yields an [ArchitectureInfo]. *)
Theorem getArchitectureExplanation_by_cases :
  (forall s : string,
     getArchitectureExplanation s
     = Fulfilled
         match parseTemplate s with
         | Some t => JsInfo (infoFor t)
         | None =>
             if isObjectPrototypeKey s then JsInherited s
             else JsInfo genericFallback
         end) /\
  (forall s : string,
     isObjectPrototypeKey s = true ->
     getArchitectureExplanation s = Fulfilled (JsInherited s) /\
     forall info, getArchitectureExplanation s <> Fulfilled (JsInfo info)).
Proof.
  assert (Hcases : forall s : string,
     getArchitectureExplanation s
     = Fulfilled
         match parseTemplate s with
         | Some t => JsInfo (infoFor t)
         | None =>
             if isObjectPrototypeKey s then JsInherited s
             else JsInfo genericFallback
         end).
  { intros s. destruct (parseTemplate s) as [t|] eqn:Hs.
    - apply parseTemplate_Some in Hs as ->.
      apply getArchitectureExplanation_value.
    - unfold getArchitectureExplanation, getProperty.
      rewrite (mockResponses_other s Hs).
      destruct (isObjectPrototypeKey s); reflexivity. }
  split; [exact Hcases|].
  intros s Hkey. rewrite Hcases, (inherited_key_not_template s Hkey), Hkey.
  split; [reflexivity|]. intros info. discriminate.
Qed.

Lemma getArchitectureExplanation_by_cases_witness :
  getArchitectureExplanation "toString" = Fulfilled (JsInherited "toString").
Proof.
  apply (proj2 getArchitectureExplanation_by_cases "toString").
  reflexivity.
Defined.

End MoreArchitectureFacts.

(** ** App.tsx: [handleDownloadZip] *)

Section DownloadFacts.

Import ArchitectureService TemplateService App AppEvents.

Lemma zipFiles_snoc (fs : list GeneratedFile) (f : GeneratedFile) :
  zipFiles (fs ++ [f]) = <[path f := content f]> (zipFiles fs).
Proof. unfold zipFiles. rewrite foldl_snoc. reflexivity. Qed.

Lemma zipFiles_is_Some (fs : list GeneratedFile) (p : string) :
  is_Some (zipFiles fs !! p) <-> p ∈ map path fs.
Proof.
  induction fs as [|f fs IH] using rev_ind.
  - unfold zipFiles. simpl. rewrite lookup_empty. split.
    + intros [? H]. discriminate H.
    + intros H. inversion H.
  - rewrite zipFiles_snoc, map_app, elem_of_app. simpl.
    destruct (decide (path f = p)) as [<-|Hne].
    + rewrite lookup_insert_eq. split; [|eauto].
      intros _. right. apply list_elem_of_here.
    + rewrite lookup_insert_ne by exact Hne. rewrite IH.
      split; [auto|]. intros [H|H]; [exact H|].
      apply list_elem_of_singleton in H. congruence.
Qed.

(** X7: an archive built from files with pairwise distinct paths holds
    every file under its path with its own content. *)
Theorem zipFiles_unique_paths (fs : list GeneratedFile) (f : GeneratedFile) :
  NoDup (map path fs) ->
  f ∈ fs ->
  zipFiles fs !! path f = Some (content f).
Proof.
  induction fs as [|g fs IH] using rev_ind; [intros _ H; inversion H|].
  rewrite map_app, NoDup_app. simpl. intros (Hnd & Hfresh & _) Hin.
  rewrite zipFiles_snoc.
  apply elem_of_app in Hin as [Hin|Hin].
  - rewrite lookup_insert_ne; [auto|].
    intros Heq. apply (Hfresh (path f)).
    + apply list_elem_of_In, in_map, list_elem_of_In, Hin.
    + rewrite Heq. apply list_elem_of_here.
  - apply list_elem_of_singleton in Hin as ->. apply lookup_insert_eq.
Qed.

(** X8: in general the entry under a path holds the content of the last
    file with that path: a later file silently replaces an earlier one,
    and a path no file has is absent. *)
Theorem zipFiles_last_wins (fs : list GeneratedFile) (p : string) :
  zipFiles fs !! p
  = content <$> last (List.filter (fun f => String.eqb (path f) p) fs).
Proof.
  induction fs as [|f fs IH] using rev_ind; [reflexivity|].
  rewrite zipFiles_snoc, List.filter_app. simpl.
  destruct (String.eqb_spec (path f) p) as [<-|Hne].
  - rewrite lookup_insert_eq, last_snoc. reflexivity.
  - rewrite lookup_insert_ne by exact Hne. rewrite app_nil_r. exact IH.
Qed.

(** X9: the archive never has more entries than there are files, and it
    has as many exactly when the paths are pairwise distinct. *)
Theorem zipFiles_size (fs : list GeneratedFile) :
  size (zipFiles fs) <= length fs /\
  (size (zipFiles fs) = length fs <-> NoDup (map path fs)).
Proof.
  induction fs as [|f fs [IHle IHeq]] using rev_ind.
  - unfold zipFiles. simpl. rewrite map_size_empty.
    split; [lia|]. split; [constructor|reflexivity].
  - rewrite zipFiles_snoc, map_size_insert, length_app, map_app, NoDup_app.
    simpl.
    destruct (zipFiles fs !! path f) as [c|] eqn:Hlook; simpl.
    + split; [lia|]. split; [lia|].
      intros (_ & Hfresh & _). exfalso.
      apply (Hfresh (path f)); [|apply list_elem_of_here].
      apply zipFiles_is_Some. eauto.
    + split; [lia|]. split.
      * intros Hsz. split; [apply IHeq; lia|]. split; [|apply NoDup_singleton].
        intros p Hp Hp'. apply list_elem_of_singleton in Hp' as ->.
        apply zipFiles_is_Some in Hp as [c Hc]. congruence.
      * intros (Hnd & _ & _). apply IHeq in Hnd. lia.
Qed.

(** Without a result [handleDownloadZip] does nothing. *)
Lemma handleDownloadZip_without_result (w : World) :
  result (ui w) = None ->
  handleDownloadZip w = (Normal None, w).
Proof.
  unfold handleDownloadZip. intros ->. reflexivity.
Qed.

(** X11: with a result [handleDownloadZip] hands over one archive, named
    after the project name now in the form (not the name the result was
    generated for) and holding the entries of the files of the stored
    result except an entry whose name is the empty string, which the
    serialiser passes over; it appends one log line and leaves the rest
    of the page and the record of engine calls as they were. *)
Theorem handleDownloadZip_with_result (w : World) (p : ProjectStructure) :
  result (ui w) = Some p ->
  fst (handleDownloadZip w)
  = Normal (Some {| downloadName := App.projectName (ui w) +:+ ".zip";
                    archive := delete EmptyString (zipFiles (files p)) |}) /\
  (forall name : string,
     name <> EmptyString ->
     delete EmptyString (zipFiles (files p)) !! name = zipFiles (files p) !! name) /\
  delete EmptyString (zipFiles (files p)) !! EmptyString = None /\
  logs (ui (snd (handleDownloadZip w)))
  = logs (ui w) ++ ["Downloaded " +:+ App.projectName (ui w) +:+ ".zip"] /\
  result (ui (snd (handleDownloadZip w))) = Some p /\
  selectedFile (ui (snd (handleDownloadZip w))) = selectedFile (ui w) /\
  App.projectName (ui (snd (handleDownloadZip w))) = App.projectName (ui w) /\
  engineCalls (snd (handleDownloadZip w)) = engineCalls w.
Proof.
  destruct w as [[name t lg gen res ex sel cp opts sd] fr cl dp ce ec].
  cbn [ui result]. intros ->.
  split; [reflexivity|].
  split; [intros k Hk; apply lookup_delete_ne; congruence|].
  split; [apply lookup_delete_eq|].
  repeat split.
Qed.

End DownloadFacts.

(** ** App.tsx: sessions *)

Section SessionFacts.

Import ArchitectureService TemplateService App AppEvents.

Variable generateFiles :
  string -> string -> ProjectOptions -> Completion (list GeneratedFile).

(** What a submission leaves behind. *)
Lemma handleGenerate_summary (w : World) :
  (exists added,
     logs (ui (snd (handleGenerate generateFiles w))) = logs (ui w) ++ added) /\
  if jsTruthyString (App.projectName (ui w)) then
    engineCalls (snd (handleGenerate generateFiles w))
    = engineCalls w ++
        [mkEngineCall (App.projectName (ui w))
           (templateValue (App.template (ui w))) (projectOptions (ui w))] /\
    match generateFiles (App.projectName (ui w))
            (templateValue (App.template (ui w))) (projectOptions (ui w)) with
    | Returned fs =>
        result (ui (snd (handleGenerate generateFiles w)))
        = Some (mkProjectStructure (App.projectName (ui w))
                  (App.template (ui w)) fs) /\
        selectedFile (ui (snd (handleGenerate generateFiles w))) = head fs
    | Thrown _ =>
        result (ui (snd (handleGenerate generateFiles w))) = None
    end
  else
    ui (snd (handleGenerate generateFiles w)) = ui w /\
    engineCalls (snd (handleGenerate generateFiles w)) = engineCalls w.
Proof.
  destruct w as [[name t lg gen res ex sel cp opts sd] fr cl dp ce ec].
  destruct name as [|c name].
  - split; [exists []; eval_handler; rewrite app_nil_r; reflexivity|].
    split; reflexivity.
  - run_handler.
    destruct (generateFiles (String c name) (templateValue t) opts) as [fs|e];
      eval_handler;
      (split; [rewrite <- !app_assoc; eexists; reflexivity|]);
      repeat split.
Qed.

(** What a click on the ZIP button leaves behind. *)
Lemma handleDownloadZip_summary (w : World) :
  result (ui (snd (handleDownloadZip w))) = result (ui w) /\
  selectedFile (ui (snd (handleDownloadZip w))) = selectedFile (ui w) /\
  engineCalls (snd (handleDownloadZip w)) = engineCalls w /\
  exists added,
    logs (ui (snd (handleDownloadZip w))) = logs (ui w) ++ added.
Proof.
  destruct w as [[name t lg gen [p|] ex sel cp opts sd] fr cl dp ce ec].
  - repeat split. eexists. reflexivity.
  - repeat split. exists []. cbn. rewrite app_nil_r. reflexivity.
Qed.

Lemma dispatch_ClickZip_world (s : Session) :
  world (dispatch generateFiles s ClickZip) = snd (handleDownloadZip (world s)).
Proof.
  unfold dispatch.
  destruct (handleDownloadZip (world s)) as [[[d|]|e] w]; reflexivity.
Qed.

Lemma runSession_snoc (s : Session) (events : list Event) (e : Event) :
  runSession generateFiles s (events ++ [e])
  = dispatch generateFiles (runSession generateFiles s events) e.
Proof. unfold runSession. apply foldl_snoc. Qed.

(** Splits on the event; the three handlers are summarised above, the
    setters evaluate. *)
Ltac dispatch_cases s e :=
  destruct e as [value|checked|checked|type| |index| ];
  [ | | | |
    pose proof (handleGenerate_summary (world s)) as [Hlogs Hsum]
  | |
    pose proof (handleDownloadZip_summary (world s)) as (Hres & Hsel & Hcalls & Hlogs);
    rewrite <- (dispatch_ClickZip_world s) in Hres, Hsel, Hcalls, Hlogs ].

Lemma dispatch_calls (s : Session) (e : Event) :
  Forall callWellFormed (engineCalls (world s)) ->
  Forall callWellFormed (engineCalls (world (dispatch generateFiles s e))).
Proof.
  intros H. dispatch_cases s e; try exact H.
  - cbn [dispatch world].
    destruct (jsTruthyString (App.projectName (ui (world s)))) eqn:Hname.
    + destruct Hsum as [-> _]. apply Forall_app. split; [exact H|].
      constructor; [|constructor]. split; cbn.
      * apply jsTruthyString_true, Hname.
      * eexists. reflexivity.
    + destruct Hsum as [_ ->]. exact H.
  - cbn [dispatch]. destruct (result (ui (world s))); [|exact H].
    destruct (files _ !! index); exact H.
  - rewrite Hcalls. exact H.
Qed.

Lemma dispatch_result (s : Session) (e : Event) :
  resultFromCall generateFiles (world s) ->
  resultFromCall generateFiles (world (dispatch generateFiles s e)).
Proof.
  intros H. dispatch_cases s e; try exact H.
  - cbn [dispatch world]. unfold resultFromCall.
    destruct (jsTruthyString (App.projectName (ui (world s)))) eqn:Hname.
    + destruct Hsum as [Hcalls Hsum]. rewrite Hcalls.
      destruct (generateFiles _ _ _) as [fs|err] eqn:Hgen.
      * destruct Hsum as [-> _]. intros p [= <-].
        eexists _, _. split; [apply elem_of_app; right; apply list_elem_of_here|].
        cbn. repeat split. exact Hgen.
      * rewrite Hsum. discriminate.
    + destruct Hsum as [-> ->]. exact H.
  - cbn [dispatch]. destruct (result (ui (world s))); [|exact H].
    destruct (files _ !! index); exact H.
  - unfold resultFromCall. rewrite Hres, Hcalls. exact H.
Qed.

Lemma dispatch_selection (s : Session) (e : Event) :
  selectionInResult (world s) ->
  selectionInResult (world (dispatch generateFiles s e)).
Proof.
  intros H. dispatch_cases s e; try exact H.
  - cbn [dispatch world]. unfold selectionInResult.
    destruct (jsTruthyString (App.projectName (ui (world s)))) eqn:Hname.
    + destruct Hsum as [_ Hsum].
      destruct (generateFiles _ _ _) as [fs|err].
      * destruct Hsum as [-> ->]. intros p f [= <-] Hhead. cbn.
        destruct fs as [|f0 fs]; [discriminate|].
        injection Hhead as <-. apply list_elem_of_here.
      * rewrite Hsum. discriminate.
    + destruct Hsum as [-> _]. exact H.
  - cbn [dispatch]. destruct (result (ui (world s))) as [r|] eqn:Hr; [|exact H].
    destruct (files r !! index) as [file|] eqn:Hfile; [|exact H].
    unfold selectionInResult. cbn. rewrite Hr. intros p f [= <-] [= <-].
    eapply list_elem_of_lookup_2, Hfile.
  - unfold selectionInResult. rewrite Hres, Hsel. exact H.
Qed.

Lemma dispatch_logs (s : Session) (e : Event) :
  logs (ui (world s)) `prefix_of` logs (ui (world (dispatch generateFiles s e))) /\
  engineCalls (world s) `prefix_of` engineCalls (world (dispatch generateFiles s e)) /\
  downloads s `prefix_of` downloads (dispatch generateFiles s e).
Proof.
  dispatch_cases s e; try (repeat split; reflexivity).
  - cbn [dispatch world downloads]. split; [exact Hlogs|]. split; [|reflexivity].
    destruct (jsTruthyString _); destruct Hsum as [H1 H2].
    + rewrite H1. eexists. reflexivity.
    + rewrite H2. reflexivity.
  - cbn [dispatch]. destruct (result (ui (world s))); [|repeat split; reflexivity].
    destruct (files _ !! index); repeat split; reflexivity.
  - split; [exact Hlogs|]. split; [rewrite Hcalls; reflexivity|].
    unfold dispatch.
    destruct (handleDownloadZip (world s)) as [[[d|]|err] w]; cbn;
      try reflexivity.
    eexists. reflexivity.
Qed.

(** X12: in every session on the page, each call of [generateFiles]
    carries a non-empty project name and a template identifier that is a
    value of the enum: the engine is never asked for an unknown template
    or an empty name. *)
Theorem session_calls_well_formed (now : nat) (events : list Event) :
  Forall callWellFormed
    (engineCalls (world (runSession generateFiles (openPage now) events))).
Proof.
  induction events as [|e events IH] using rev_ind; [constructor|].
  rewrite runSession_snoc. apply dispatch_calls, IH.
Qed.

(** X13: in every session, a result on the page is a whole project as
    [generateFiles] returned it: its files are the list returned by a
    recorded call made with the name and the template the result
    carries. *)
Theorem session_result_from_engine (now : nat) (events : list Event) :
  resultFromCall generateFiles
    (world (runSession generateFiles (openPage now) events)).
Proof.
  induction events as [|e events IH] using rev_ind;
    [intros p Hp; discriminate Hp|].
  rewrite runSession_snoc. apply dispatch_result, IH.
Qed.

(** X14: in every session, when a result is on the page the selected
    file is one of its files: the preview never shows a file of an
    earlier project next to the current one. *)
Theorem session_selection_in_result (now : nat) (events : list Event) :
  selectionInResult (world (runSession generateFiles (openPage now) events)).
Proof.
  induction events as [|e events IH] using rev_ind;
    [intros p f Hp; discriminate Hp|].
  rewrite runSession_snoc. apply dispatch_selection, IH.
Qed.

(** X15: nothing the user does removes history: along any session the
    log, the record of engine calls and the list of downloads only grow
    at the end. *)
Theorem session_history_grows (s : Session) (events : list Event) :
  logs (ui (world s))
    `prefix_of` logs (ui (world (runSession generateFiles s events))) /\
  engineCalls (world s)
    `prefix_of` engineCalls (world (runSession generateFiles s events)) /\
  downloads s `prefix_of` downloads (runSession generateFiles s events).
Proof.
  induction events as [|e events (IH1 & IH2 & IH3)] using rev_ind;
    [repeat split; reflexivity|].
  rewrite runSession_snoc.
  destruct (dispatch_logs (runSession generateFiles s events) e)
    as (H1 & H2 & H3).
  repeat split; etransitivity; eauto.
Qed.

(** X16: renaming the project after generating it and then downloading
    yields an archive named after the new name that holds the files
    generated for the old one (except an entry with an empty name, which
    the serialiser passes over). *)
Theorem rename_then_download (now : nat) (old new : string)
  (fs : list GeneratedFile) :
  jsTruthyString old = true ->
  generateFiles old (templateValue (App.template initialState))
    (projectOptions initialState) = Returned fs ->
  downloads
    (runSession generateFiles (openPage now)
       [InputProjectName old; SubmitForm; InputProjectName new; ClickZip])
  = [ {| downloadName := new +:+ ".zip";
         archive := delete EmptyString (zipFiles fs) |} ] /\
  result
    (ui (world
           (runSession generateFiles (openPage now)
              [InputProjectName old; SubmitForm; InputProjectName new; ClickZip])))
  = Some (mkProjectStructure old (App.template initialState) fs).
Proof.
  intros Hname Hgen.
  pose (w1 := world (dispatch generateFiles (openPage now) (InputProjectName old))).
  pose proof (handleGenerate_summary w1) as [_ Hsum].
  change (App.projectName (ui w1)) with old in Hsum.
  change (App.template (ui w1)) with (App.template initialState) in Hsum.
  change (projectOptions (ui w1)) with (projectOptions initialState) in Hsum.
  rewrite Hname, Hgen in Hsum. destruct Hsum as (_ & Hres & _).
  unfold runSession. cbn [foldl].
  change (dispatch generateFiles
            (dispatch generateFiles (openPage now) (InputProjectName old))
            SubmitForm)
    with {| world := snd (handleGenerate generateFiles w1); downloads := [] |}.
  revert Hres. generalize (snd (handleGenerate generateFiles w1)).
  intros [[name t lg gen res ex sel cp opts sd] fr cl dp ce ec].
  cbn [ui result]. intros ->. split; reflexivity.
Qed.

End SessionFacts.

(** ** components/TerminalOutput.tsx *)

Section TerminalFacts.

Import ArchitectureService TemplateService App AppEvents TerminalOutput.

Lemma occursIn_cons_false (q c : ascii) (n : string) :
  occursIn q (String c n) = false ->
  Ascii.eqb c q = false /\ occursIn q n = false.
Proof.
  unfold occursIn. simpl. intros H.
  apply orb_false_iff in H as [H1 H2].
  rewrite Ascii.eqb_sym. auto.
Qed.

Lemma startsWith_app_sep (name rest needle : string) (q : ascii) :
  occursIn q needle = false ->
  startsWith (name +:+ String q rest) needle = startsWith name needle.
Proof.
  revert needle. induction name as [|d name IH]; intros [|c n] Hq; simpl;
    try reflexivity.
  - apply occursIn_cons_false in Hq as [-> _]. reflexivity.
  - apply occursIn_cons_false in Hq as [_ Hq]. rewrite (IH n Hq). reflexivity.
Qed.

Lemma includes_app_sep (name rest : string) (q c : ascii) (n : string) :
  occursIn q (String c n) = false ->
  includes (name +:+ String q rest) (String c n)
  = includes name (String c n) || includes rest (String c n).
Proof.
  intros Hq. induction name as [|d name IH].
  - simpl. destruct (occursIn_cons_false _ _ _ Hq) as [-> _]. reflexivity.
  - change (String d name +:+ String q rest)
      with (String d (name +:+ String q rest)).
    cbn [includes]. rewrite IH.
    change (String d (name +:+ String q rest))
      with (String d name +:+ String q rest).
    rewrite (startsWith_app_sep (String d name) rest (String c n) q Hq).
    rewrite orb_assoc. reflexivity.
Qed.

Lemma includes_app_disjoint (pre s : string) (c : ascii) (n : string) :
  forallb (fun d => negb (occursIn d (String c n))) (list_ascii_of_string pre)
  = true ->
  includes (pre +:+ s) (String c n) = includes s (String c n).
Proof.
  induction pre as [|d pre IH]; simpl; [reflexivity|].
  intros H. apply andb_true_iff in H as [Hd Hpre].
  apply negb_true_iff, occursIn_cons_false in Hd as [-> _].
  simpl. apply IH, Hpre.
Qed.

(** A line made of a fixed text free of the needle's characters, a name,
    a separator character foreign to the needle and a fixed tail free of
    the needle contains the needle exactly when the name does. *)
Lemma includes_framed (pre name post : string) (q c : ascii) (n : string) :
  forallb (fun d => negb (occursIn d (String c n))) (list_ascii_of_string pre)
  = true ->
  occursIn q (String c n) = false ->
  includes post (String c n) = false ->
  includes (pre +:+ name +:+ String q post) (String c n)
  = includes name (String c n).
Proof.
  intros Hpre Hq Hpost.
  rewrite includes_app_disjoint by exact Hpre.
  rewrite includes_app_sep by exact Hq.
  rewrite Hpost. apply orb_false_r.
Qed.

Lemma lineClass_framed (pre name post : string) (q : ascii) :
  forallb (fun d => negb (occursIn d "ERROR") && negb (occursIn d "SUCCESS"))
    (list_ascii_of_string pre) = true ->
  occursIn q "ERROR" = false ->
  occursIn q "SUCCESS" = false ->
  includes post "ERROR" = false ->
  includes post "SUCCESS" = false ->
  lineClass (pre +:+ name +:+ String q post) = lineClass name.
Proof.
  intros Hpre Hq1 Hq2 Hp1 Hp2. unfold lineClass.
  rewrite !includes_framed; auto.
  - apply forallb_forall. intros d Hd.
    rewrite forallb_forall in Hpre. specialize (Hpre d Hd).
    apply andb_true_iff in Hpre as [_ H]. exact H.
  - apply forallb_forall. intros d Hd.
    rewrite forallb_forall in Hpre. specialize (Hpre d Hd).
    apply andb_true_iff in Hpre as [H _]. exact H.
Qed.

Lemma doneLine_class (name : string) (t : TemplateType) :
  lineClass ("Done! Generated " +:+ dquote +:+ name +:+ dquote
             +:+ " with " +:+ templateValue t +:+ ".")
  = lineClass name.
Proof.
  change ("Done! Generated " +:+ dquote +:+ name +:+ dquote
          +:+ " with " +:+ templateValue t +:+ ".")
    with (("Done! Generated " +:+ dquote) +:+ name
          +:+ String (Ascii.ascii_of_nat 34) (" with " +:+ templateValue t +:+ ".")).
  destruct t; apply lineClass_framed; reflexivity.
Qed.

Lemma downloadLine_class (name : string) :
  lineClass ("Downloaded " +:+ name +:+ ".zip") = lineClass name.
Proof.
  change ("Downloaded " +:+ name +:+ ".zip")
    with ("Downloaded " +:+ name +:+ String "."%char "zip").
  apply lineClass_framed; reflexivity.
Qed.

Variable generateFiles :
  string -> string -> ProjectOptions -> Completion (list GeneratedFile).

(** X17: how the terminal colours the lines of a run.  Every line a run
    appends but the last is drawn in the neutral class, whatever the
    project name.  When the engine call throws, the last line is drawn
    as an error.  When it returns, the last line, which quotes the
    project name, is drawn in the class the name alone would get: as an
    error when the name contains ERROR, as a success only when the name
    contains SUCCESS (and not ERROR), and neutral otherwise.  After the
    run the placeholder line is gone. *)
Theorem generation_log_classes (w : World) :
  jsTruthyString (App.projectName (ui w)) = true ->
  exists others final,
    logs (ui (snd (handleGenerate generateFiles w)))
    = logs (ui w) ++ others ++ [final] /\
    Forall (fun line => lineClass line = "text-slate-300") others /\
    lineClass final
    = match generateFiles (App.projectName (ui w))
              (templateValue (App.template (ui w))) (projectOptions (ui w)) with
      | Returned _ => lineClass (App.projectName (ui w))
      | Thrown _ => "text-red-400"
      end /\
    showsPlaceholder (logs (ui (snd (handleGenerate generateFiles w)))) = false.
Proof.
  destruct w as [[name t lg gen res ex sel cp opts sd] fr cl dp ce ec].
  cbn [ui App.projectName App.template projectOptions]. intros Hname.
  destruct name as [|c name]; [discriminate|].
  assert (Hshown : forall l x, showsPlaceholder (lg ++ l ++ [x]) = false).
  { intros l x. unfold showsPlaceholder. rewrite !length_app. simpl.
    apply Nat.eqb_neq. lia. }
  run_handler.
  destruct (generateFiles (String c name) (templateValue t) opts) as [fs|e];
    cbn [snd ui logs]; eval_handler; rewrite <- !app_assoc.
  - eexists [_; _; _; _; _; _; _], _. cbn [app].
    split; [reflexivity|]. split; [|split].
    + destruct t, opts as [[] []]; repeat constructor.
    + apply (doneLine_class (String c name) t).
    + apply (Hshown [_; _; _; _; _; _; _]).
  - eexists [_; _; _; _; _], _. cbn [app].
    split; [reflexivity|]. split; [|split].
    + destruct t, opts as [[] []]; repeat constructor.
    + reflexivity.
    + apply (Hshown [_; _; _; _; _]).
Qed.

(** X18: the line a download appends is drawn in the class the project
    name in the form alone would get. *)
Theorem download_log_class (w : World) (p : ProjectStructure) :
  result (ui w) = Some p ->
  exists final,
    logs (ui (snd (handleDownloadZip w))) = logs (ui w) ++ [final] /\
    lineClass final = lineClass (App.projectName (ui w)).
Proof.
  destruct w as [[name t lg gen res ex sel cp opts sd] fr cl dp ce ec].
  cbn [ui result App.projectName]. intros ->.
  eexists. split; [reflexivity|]. apply downloadLine_class.
Qed.

End TerminalFacts.

(** ** App.tsx: the preview pane *)

Section PreviewFacts.

Import ArchitectureService TemplateService App AppEvents TerminalOutput.

Lemma lowerAscii_slash (c : ascii) :
  Ascii.eqb "/" (lowerAscii c) = Ascii.eqb "/" c.
Proof. destruct c as [[] [] [] [] [] [] [] []]; reflexivity. Qed.

Lemma countChar_toLowerCase_slash (s : string) :
  countChar "/" (toLowerCase s) = countChar "/" s.
Proof.
  unfold countChar. induction s as [|d s IH]; [reflexivity|].
  cbn [toLowerCase list_ascii_of_string List.filter].
  rewrite lowerAscii_slash. destruct (Ascii.eqb "/" d); cbn [length]; congruence.
Qed.

Lemma countChar_removeFirstChar (c : ascii) (s : string) :
  countChar c (removeFirstChar c s) = pred (countChar c s).
Proof.
  unfold countChar. induction s as [|d s IH]; simpl; [reflexivity|].
  destruct (Ascii.eqb c d) eqn:Hcd; simpl; [reflexivity|].
  rewrite Hcd. exact IH.
Qed.

(** X19: whatever language tag a file carries, the tag handed to the
    highlighter has no upper-case ASCII letter. *)
Theorem highlighterLanguage_lower_case (f : GeneratedFile) :
  forallb (fun c => negb (isUpperAscii c))
    (list_ascii_of_string (highlighterLanguage f)) = true.
Proof.
  unfold highlighterLanguage.
  apply removeFirstChar_keeps, toLowerCase_lower.
Qed.

(** X20: only the first slash of a tag is removed: the tag handed to the
    highlighter has one slash fewer than the file's tag (none fewer when
    the tag has none), so a tag with two or more slashes still reaches
    the highlighter with a slash in it. *)
Theorem highlighterLanguage_slashes (f : GeneratedFile) :
  countChar "/" (highlighterLanguage f) = pred (countChar "/" (language f)).
Proof.
  unfold highlighterLanguage.
  rewrite countChar_removeFirstChar, countChar_toLowerCase_slash.
  reflexivity.
Qed.

Lemma filter_path_fresh (p : string) (fs : list GeneratedFile) :
  p ∉ map path fs ->
  List.filter (fun f => String.eqb p (path f)) fs = [].
Proof.
  induction fs as [|g fs IH]; simpl; [reflexivity|].
  intros Hp. apply not_elem_of_cons in Hp as [Hne Hp].
  destruct (String.eqb_spec p (path g)); [contradiction|]. exact (IH Hp).
Qed.

Variable generateFiles :
  string -> string -> ProjectOptions -> Completion (list GeneratedFile).

(** X21: after a run whose engine call returns files with pairwise
    distinct paths, the sidebar draws exactly one entry as selected, the
    first one (and none when no file was returned). *)
Theorem sidebar_single_selection (w : World) (fs : list GeneratedFile) :
  jsTruthyString (App.projectName (ui w)) = true ->
  generateFiles (App.projectName (ui w)) (templateValue (App.template (ui w)))
    (projectOptions (ui w)) = Returned fs ->
  NoDup (map path fs) ->
  List.filter (isSelected (selectedFile (ui (snd (handleGenerate generateFiles w)))))
    fs
  = match fs with
    | [] => []
    | first :: _ => [first]
    end.
Proof.
  destruct w as [[name t lg gen res ex sel cp opts sd] fr cl dp ce ec].
  cbn [ui App.projectName App.template projectOptions]. intros Hname Hret Hnd.
  destruct name as [|c name]; [discriminate|].
  run_handler. rewrite Hret. eval_handler.
  destruct fs as [|first rest]; [reflexivity|].
  simpl in Hnd. apply NoDup_cons in Hnd as [Hfresh _].
  cbn [head isSelected List.filter]. rewrite String.eqb_refl.
  f_equal. apply filter_path_fresh, Hfresh.
Qed.

End PreviewFacts.

(** ** App.tsx: the result panel over a session *)

Section PanelFacts.

Import ArchitectureService TemplateService App AppEvents.

Variable generateFiles :
  string -> string -> ProjectOptions -> Completion (list GeneratedFile).

Lemma handleGenerate_explanation_summary (w : World) :
  jsTruthyString (App.projectName (ui w)) = true ->
  match generateFiles (App.projectName (ui w))
          (templateValue (App.template (ui w))) (projectOptions (ui w)) with
  | Returned fs =>
      explanation (ui (snd (handleGenerate generateFiles w)))
      = Some (JsInfo (infoFor (App.template (ui w))))
  | Thrown _ => True
  end.
Proof.
  destruct w as [[name t lg gen res ex sel cp opts sd] fr cl dp ce ec].
  cbn [ui App.projectName App.template projectOptions]. intros Hname.
  destruct name as [|c name]; [discriminate|].
  run_handler.
  destruct (generateFiles (String c name) (templateValue t) opts) as [fs|e];
    [reflexivity|exact I].
Qed.

Lemma handleDownloadZip_explanation (w : World) :
  explanation (ui (snd (handleDownloadZip w))) = explanation (ui w).
Proof.
  destruct w as [[name t lg gen [p|] ex sel cp opts sd] fr cl dp ce ec];
    reflexivity.
Qed.

Lemma dispatch_explanation (s : Session) (e : Event) :
  explanationMatches (world s) ->
  explanationMatches (world (dispatch generateFiles s e)).
Proof.
  intros H. destruct e as [value|checked|checked|type| |index| ].
  1-4: exact H.
  - cbn [dispatch world]. unfold explanationMatches.
    pose proof (handleGenerate_summary generateFiles (world s)) as [_ Hsum].
    pose proof (handleGenerate_explanation_summary (world s)) as Hex.
    destruct (jsTruthyString (App.projectName (ui (world s)))) eqn:Hname.
    + specialize (Hex eq_refl). destruct Hsum as [_ Hsum].
      destruct (generateFiles _ _ _) as [fs|err].
      * destruct Hsum as [-> _]. rewrite Hex. intros name t fs' [= _ <- _].
        reflexivity.
      * rewrite Hsum. discriminate.
    + destruct Hsum as [-> _]. exact H.
  - cbn [dispatch]. destruct (result (ui (world s))); [|exact H].
    destruct (files _ !! index); exact H.
  - pose proof (handleDownloadZip_summary (world s)) as (Hres & _).
    pose proof (handleDownloadZip_explanation (world s)) as Hex.
    rewrite <- (dispatch_ClickZip_world generateFiles s) in Hres, Hex.
    unfold explanationMatches. rewrite Hres, Hex. exact H.
Qed.

(** X10: a run whose engine call throws leaves nothing to download: a
    click on the ZIP button right after it triggers no download, adds no
    log line and changes nothing. *)
Theorem failed_run_cannot_download (w : World) (err : GenerationError) :
  jsTruthyString (App.projectName (ui w)) = true ->
  generateFiles (App.projectName (ui w)) (templateValue (App.template (ui w)))
    (projectOptions (ui w)) = Thrown err ->
  handleDownloadZip (snd (handleGenerate generateFiles w))
  = (Normal None, snd (handleGenerate generateFiles w)).
Proof.
  intros Hname Hthrown.
  pose proof (handleGenerate_summary generateFiles w) as [_ H].
  rewrite Hname, Hthrown in H. destruct H as [_ H].
  apply handleDownloadZip_without_result, H.
Qed.

(** X22: in every session, when a result is on the page the explanation
    next to it is the table entry of the template that result was
    generated for, whatever template is selected in the form by then. *)
Theorem session_explanation_matches_result (now : nat) (events : list Event) :
  explanationMatches (world (runSession generateFiles (openPage now) events)).
Proof.
  induction events as [|e events IH] using rev_ind;
    [intros name t fs Hp; discriminate Hp|].
  rewrite runSession_snoc. apply dispatch_explanation, IH.
Qed.

End PanelFacts.

(** ** More runs on the sample catalog *)

Section MoreSampleRuns.

Import ArchitectureService TemplateService App AppEvents TerminalOutput Sample.

Example error_line_is_red :
  lineClass "ERROR: Backend connection failed." = "text-red-400".
Proof. reflexivity. Qed.

Example two_slashes_leave_one :
  highlighterLanguage {| path := "a"; content := "b"; language := "A/B/C" |}
  = "ab/c".
Proof. reflexivity. Qed.

Example duplicate_path_overwrites :
  zipFiles [ {| path := "a.txt"; content := "first"; language := "text" |};
             {| path := "a.txt"; content := "second"; language := "text" |} ]
    !! "a.txt"
  = Some "second".
Proof. vm_compute. reflexivity. Qed.

Example empty_name_entry_not_written :
  generateAsync
    (zipFiles [ {| path := EmptyString; content := "lost"; language := "text" |};
                {| path := "a.txt"; content := "kept"; language := "text" |} ])
  = {[ "a.txt" := "kept" ]}.
Proof. vm_compute. reflexivity. Qed.

Lemma handleGenerate_explanation_witness :
  explanation (ui secondSubmit) = Some (JsInfo expressInfo).
Proof.
  apply (handleGenerate_explanation engine firstSubmit
           (filesFor "user-api" TYPESCRIPT_EXPRESS bothOptions));
    reflexivity.
Defined.

Lemma zipFiles_unique_paths_witness :
  zipFiles (filesFor "svc" GO_CLEAN_ARCH noOptions) !! "cmd/svc/main.go"
  = Some "package main".
Proof.
  apply (zipFiles_unique_paths (filesFor "svc" GO_CLEAN_ARCH noOptions)
           {| path := "cmd/svc/main.go"; content := "package main";
              language := "go" |}).
  - apply (bool_decide_eq_true_1 _ (Decision0 := _)). vm_compute. reflexivity.
  - apply (bool_decide_eq_true_1 _ (Decision0 := _)). vm_compute. reflexivity.
Defined.

Lemma failed_run_cannot_download_witness :
  fst (handleDownloadZip
         (snd (handleGenerate (fun _ _ _ => Thrown DuplicatePath) firstSubmit)))
  = Normal None.
Proof.
  rewrite (failed_run_cannot_download (fun _ _ _ => Thrown DuplicatePath)
             firstSubmit DuplicatePath); reflexivity.
Defined.

Lemma handleDownloadZip_with_result_witness :
  fst (handleDownloadZip secondSubmit)
  = Normal (Some {| downloadName := "user-api.zip";
                    archive :=
                      delete EmptyString
                        (zipFiles (filesFor "user-api" TYPESCRIPT_EXPRESS bothOptions)) |}).
Proof.
  apply (handleDownloadZip_with_result secondSubmit
           (mkProjectStructure "user-api" TYPESCRIPT_EXPRESS
              (filesFor "user-api" TYPESCRIPT_EXPRESS bothOptions))).
  reflexivity.
Defined.

Lemma rename_then_download_witness :
  downloads
    (runSession engine (openPage 0)
       [InputProjectName "user-api"; SubmitForm; InputProjectName "billing";
        ClickZip])
  = [ {| downloadName := "billing.zip";
         archive :=
           delete EmptyString
             (zipFiles (filesFor "user-api" TYPESCRIPT_EXPRESS bothOptions)) |} ].
Proof.
  apply (rename_then_download engine 0 "user-api" "billing"
           (filesFor "user-api" TYPESCRIPT_EXPRESS bothOptions));
    reflexivity.
Defined.

Lemma generation_log_classes_witness :
  exists others final,
    logs (ui (snd (handleGenerate engine (freshWorld (typedName "ERROR-api") 0))))
    = others ++ [final] /\
    Forall (fun line => lineClass line = "text-slate-300") others /\
    lineClass final = "text-red-400" /\
    showsPlaceholder
      (logs (ui (snd (handleGenerate engine (freshWorld (typedName "ERROR-api") 0)))))
    = false.
Proof.
  apply (generation_log_classes engine (freshWorld (typedName "ERROR-api") 0)).
  reflexivity.
Defined.

Lemma download_log_class_witness :
  exists final,
    logs (ui (snd (handleDownloadZip secondSubmit)))
    = logs (ui secondSubmit) ++ [final] /\
    lineClass final = "text-slate-300".
Proof.
  apply (download_log_class secondSubmit
           (mkProjectStructure "user-api" TYPESCRIPT_EXPRESS
              (filesFor "user-api" TYPESCRIPT_EXPRESS bothOptions))).
  reflexivity.
Defined.

Lemma sidebar_single_selection_witness :
  map path
    (List.filter (isSelected (selectedFile (ui secondSubmit)))
       (filesFor "user-api" TYPESCRIPT_EXPRESS bothOptions))
  = ["package.json"].
Proof.
  unfold secondSubmit.
  rewrite (sidebar_single_selection engine firstSubmit
             (filesFor "user-api" TYPESCRIPT_EXPRESS bothOptions)).
  - reflexivity.
  - reflexivity.
  - reflexivity.
  - apply (bool_decide_eq_true_1 _ (Decision0 := _)). vm_compute. reflexivity.
Defined.

End MoreSampleRuns.
